(** * Cash Flow Affordability (CFA) calculator: a shallow embedding

    This development embeds the scoring engine of [cfa_calculator.py]
    (class [CFACalculator]) and proves the properties its specification
    states about it.

    Modelling conventions.
    - A pandas [DataFrame] is a list of column names together with a list
      of rows.  A row carries one field per column the engine ever reads
      or writes; the field of a column that is not listed in [columns] is
      never read: every read goes through [getcol], which raises
      [KeyError] exactly where [self.data[name]] would.
    - Python floats are modelled by exact rationals ([Q]).  [round(x, n)]
      is rounding to the nearest multiple of [10^-n], ties to even.
    - Dates are modelled after [pd.to_datetime], as integers (a time
      stamp); parsing failures are outside the model.
    - [sort_values('date')] is modelled by insertion sort.  pandas'
      default sort is not stable, so the relative order of rows that share
      a date is the model's choice; statements that depend on that order
      assume pairwise distinct dates.
    - Exceptions are values of [Error]; a method that can raise returns
      [Error + A].  Methods that mutate [self] return the new calculator. *)

From Stdlib Require Import String ZArith QArith Qround Qminmax Qabs.
From Stdlib Require Import List Bool Lia Lqa.
From Stdlib Require Import Permutation Sorted FinFun.
Import ListNotations.

Local Open Scope string_scope.
Local Open Scope list_scope.
Local Open Scope Q_scope.

(** ** Numbers *)

Fixpoint pow10 (n : nat) : positive :=
  match n with
  | O => 1%positive
  | S k => (10 * pow10 k)%positive
  end.

(** Nearest integer, ties to the even neighbour. *)
Definition round_half_even (x : Q) : Z :=
  let f := Qfloor x in
  match Qcompare (x - inject_Z f) (1 # 2) with
  | Lt => f
  | Gt => (f + 1)%Z
  | Eq => if Z.even f then f else (f + 1)%Z
  end.

(** Python's [round(x, ndigits)]. *)
Definition round (x : Q) (ndigits : nat) : Q :=
  round_half_even (x * inject_Z (Zpos (pow10 ndigits))) # pow10 ndigits.

(** [round(sqrt(v), ndigits)].  The root is irrational in general, so its
    rounding is computed from the inequalities that define it: with
    [s = v * 10^(2*ndigits)] and [f = floor (sqrt s)], the fractional part
    of [sqrt s] is below, at or above one half as [4 * s] is below, at or
    above [(2 * f + 1)^2]. *)
Definition round_sqrt (v : Q) (ndigits : nat) : Q :=
  let p := inject_Z (Zpos (pow10 ndigits)) in
  let s := v * p * p in
  let f := Z.sqrt (Qfloor s) in
  let k := match Qcompare (4 * s) (inject_Z ((2 * f + 1) * (2 * f + 1))) with
           | Lt => f
           | Gt => (f + 1)%Z
           | Eq => if Z.even f then f else (f + 1)%Z
           end in
  k # pow10 ndigits.

(** [Series.sum()]. *)
Definition Qsum (l : list Q) : Q := fold_left Qplus l 0.

(** [len(...)] as a float operand. *)
Definition Qlen {A : Type} (l : list A) : Q := inject_Z (Z.of_nat (length l)).

(** [Series.mean()]. *)
Definition mean (l : list Q) : Q := Qsum l / Qlen l.

(** [Series.min()] and [Series.max()]. *)
Definition series_min (l : list Q) : Q :=
  match l with
  | [] => 0
  | x :: t => fold_left Qmin t x
  end.

Definition series_max (l : list Q) : Q :=
  match l with
  | [] => 0
  | x :: t => fold_left Qmax t x
  end.

(** The square of [Series.std()]: sample variance, denominator [n - 1]. *)
Definition sample_variance (l : list Q) : Q :=
  let m := mean l in
  Qsum (map (fun x => (x - m) * (x - m)) l) / (Qlen l - 1).

(** ** Exceptions *)

Inductive Error : Type :=
| ValueError_min_days (actual : nat)
    (* "Dataset debe tener al menos 90 días. Actual: ..." *)
| ValueError_missing_cols (missing : list string)
    (* "Faltan columnas requeridas: ..." *)
| KeyError (col : string).

Definition Res (A : Type) : Type := (Error + A)%type.

Definition ret {A : Type} (a : A) : Res A := inr a.

Definition raise {A : Type} (e : Error) : Res A := inl e.

Definition bind {A B : Type} (c : Res A) (k : A -> Res B) : Res B :=
  match c with
  | inl e => inl e
  | inr a => k a
  end.

Notation "x <- c ;; k" := (bind c (fun x => k))
  (at level 61, c at next level, right associativity).

(** ** Data frames *)

Record Row : Type := mkRow {
  date : Z;
  daily_balance : Q;
  daily_income : Q;
  daily_expenses : Q;
  daily_net : Q;
  can_pay : Q
}.

Record DataFrame : Type := mkFrame {
  columns : list string;
  rows : list Row
}.

Definition has_col (df : DataFrame) (name : string) : bool :=
  existsb (String.eqb name) (columns df).

(** [df[name]]: the column as a series, or [KeyError]. *)
Definition getcol {A : Type} (df : DataFrame) (name : string)
    (field : Row -> A) : Res (list A) :=
  if has_col df name then ret (map field (rows df))
  else raise (KeyError name).

(** [df[name] = values]: overwrite the column, or append a new one. *)
Definition setcol (df : DataFrame) (name : string) (upd : Row -> Row)
    : DataFrame :=
  mkFrame (if has_col df name then columns df else columns df ++ [name])
          (map upd (rows df)).

Fixpoint insert_by_date (r : Row) (l : list Row) : list Row :=
  match l with
  | [] => [r]
  | h :: t => if (date r <=? date h)%Z then r :: l
              else h :: insert_by_date r t
  end.

(** [df.sort_values('date').reset_index(drop=True)]. *)
Definition sort_values (l : list Row) : list Row :=
  fold_right insert_by_date [] l.

(** [x.tail(n)]: the last [n] elements, all of them if there are fewer. *)
Definition tail {A : Type} (n : nat) (l : list A) : list A :=
  skipn (length l - n) l.

Definition df_tail (n : nat) (df : DataFrame) : DataFrame :=
  mkFrame (columns df) (tail n (rows df)).

(** ** The calculator *)

Record CFACalculator : Type := mkCalc {
  data : DataFrame;
  biweekly_parcel : Q
}.

Definition required_cols : list string :=
  ["date"; "daily_balance"; "daily_income"; "daily_expenses"].

(** [set(required_cols) - set(self.data.columns)]. *)
Definition missing_cols (df : DataFrame) : list string :=
  filter (fun c => negb (has_col df c)) required_cols.

Definition _validate_data (self : CFACalculator) : Res unit :=
  if (length (rows (data self)) <? 90)%nat
  then raise (ValueError_min_days (length (rows (data self))))
  else match missing_cols (data self) with
       | [] => ret tt
       | missing => raise (ValueError_missing_cols missing)
       end.

Definition set_daily_net (r : Row) : Row :=
  mkRow (date r) (daily_balance r) (daily_income r) (daily_expenses r)
        (daily_income r - daily_expenses r) (can_pay r).

Definition __init__ (d : DataFrame) (parcel : Q) : Res CFACalculator :=
  _ <- getcol d "date" date ;;
  let d1 := mkFrame (columns d) (sort_values (rows d)) in
  d2 <- (if has_col d1 "daily_net" then ret d1
         else _ <- getcol d1 "daily_income" daily_income ;;
              _ <- getcol d1 "daily_expenses" daily_expenses ;;
              ret (setcol d1 "daily_net" set_daily_net)) ;;
  let self := mkCalc d2 parcel in
  _ <- _validate_data self ;;
  ret self.

Definition set_can_pay (parcel : Q) (r : Row) : Row :=
  mkRow (date r) (daily_balance r) (daily_income r) (daily_expenses r)
        (daily_net r)
        (if Qle_bool parcel (daily_balance r) then 1 else 0).

Definition calculate_can_pay (self : CFACalculator)
    : Res (list Q * CFACalculator) :=
  _ <- getcol (data self) "daily_balance" daily_balance ;;
  let d := setcol (data self) "can_pay"
             (set_can_pay (biweekly_parcel self)) in
  s <- getcol d "can_pay" can_pay ;;
  ret (s, mkCalc d (biweekly_parcel self)).

Record Metrics : Type := mkMetrics {
  pct_90 : Q;
  pct_6m : Q;
  cfa_score : Q;
  total_days : nat;
  biweekly_parcel_out : Q
}.

Definition calculate_temporal_metrics (self : CFACalculator)
    : Res (Metrics * CFACalculator) :=
  self <- (if has_col (data self) "can_pay" then ret self
           else r <- calculate_can_pay self ;; ret (snd r)) ;;
  let last_90_days := df_tail 90 (data self) in
  c90 <- getcol last_90_days "can_pay" can_pay ;;
  let pct_90 := Qsum c90 / 90 in
  let total_days_6m := rows (data self) in
  call <- getcol (data self) "can_pay" can_pay ;;
  let pct_6m := Qsum call / Qlen total_days_6m in
  let cfa_score := pct_90 * (70 # 100) + pct_6m * (30 # 100) in
  ret (mkMetrics (round pct_90 4) (round pct_6m 4) (round cfa_score 4)
                 (length total_days_6m) (biweekly_parcel self),
       self).

Definition step_count (st : nat * nat) (val : Q) : nat * nat :=
  let '(max_count, current_count) := st in
  if Qeq_bool val 1
  then (Nat.max max_count (S current_count), S current_count)
  else (max_count, O).

Definition _max_consecutive_ones (arr : list Q) : nat :=
  fst (fold_left step_count arr (O, O)).

Definition _determine_risk_tier (cfa_score : Q) : string :=
  if Qle_bool (70 # 100) cfa_score then "Tier 3 (Premium) - CFA 70-100%"
  else if Qle_bool (60 # 100) cfa_score then "Tier 2 (Standard) - CFA 60-69%"
  else if Qle_bool (50 # 100) cfa_score then "Tier 1 (Starter) - CFA 50-59%"
  else "Denied - CFA <50%".

Definition _get_recommendation (cfa_score : Q) : string :=
  if Qle_bool (70 # 100) cfa_score
  then "APPROVE - Alta capacidad de pago. Elegible para Tier 3 ($200, 90 días)."
  else if Qle_bool (60 # 100) cfa_score
  then "APPROVE - Buena capacidad de pago. Elegible para Tier 2 ($150, 60 días)."
  else if Qle_bool (50 # 100) cfa_score
  then "CONDITIONAL - Capacidad marginal. Solo Tier 1 ($100, 30 días)."
  else "DENY - Capacidad insuficiente. Balance no puede cubrir parcels consistentemente.".

Record BalanceStats : Type := mkBalanceStats {
  avg_balance : Q;
  min_balance : Q;
  max_balance : Q;
  std_balance : Q
}.

Record NetStats : Type := mkNetStats {
  avg_daily_net : Q;
  positive_days_pct : Q
}.

Record CFAResult : Type := mkResult {
  metrics : Metrics;
  max_consecutive_can_pay_90d : nat;
  balance_stats : BalanceStats;
  net_stats : NetStats;
  risk_tier : string;
  recommendation : string
}.

(** [(s > 0).sum()]. *)
Definition count_positive (l : list Q) : Q :=
  Qlen (filter (fun x => negb (Qle_bool x 0)) l).

Definition calculate_cfa (self : CFACalculator)
    : Res (CFAResult * CFACalculator) :=
  r <- calculate_temporal_metrics self ;;
  let '(metrics, self) := r in
  let last_90 := df_tail 90 (data self) in
  can_pay_series <- getcol last_90 "can_pay" can_pay ;;
  let max_consecutive := _max_consecutive_ones can_pay_series in
  bal <- getcol (data self) "daily_balance" daily_balance ;;
  let balance_stats :=
    mkBalanceStats (round (mean bal) 2) (round (series_min bal) 2)
                   (round (series_max bal) 2)
                   (round_sqrt (sample_variance bal) 2) in
  net <- getcol (data self) "daily_net" daily_net ;;
  let net_stats :=
    mkNetStats (round (mean net) 2)
               (round (count_positive net / Qlen (rows (data self))) 4) in
  ret (mkResult metrics max_consecutive balance_stats net_stats
                (_determine_risk_tier (cfa_score metrics))
                (_get_recommendation (cfa_score metrics)),
       self).

(** The engine as its callers run it:
    [CFACalculator(series, parcel).calculate_cfa()]. *)
Definition score (series : DataFrame) (parcel : Q) : Res CFAResult :=
  self <- __init__ series parcel ;;
  r <- calculate_cfa self ;;
  ret (fst r).

(** ** Specification-side notions

    These definitions follow the wording of the specification; the code
    above does not use them.  The theorems relate the two. *)

(** The last [n] records of a series. *)
Definition last_n {A : Type} (n : nat) (l : list A) : list A :=
  rev (firstn n (rev l)).

(** A series ordered by date, ascending. *)
Definition date_le (a b : Row) : Prop := (date a <= date b)%Z.

Definition date_ascending (l : list Row) : Prop := StronglySorted date_le l.

(** The affordability rule of one record. *)
Definition can_pay_rule (parcel balance : Q) : Q :=
  if Qle_bool parcel balance then 1 else 0.

(** The four buckets of the tier table, with their score ranges. *)
Inductive Bucket : Type := Tier3 | Tier2 | Tier1 | Denied.

Definition in_bucket (b : Bucket) (s : Q) : Prop :=
  match b with
  | Tier3 => 70 # 100 <= s
  | Tier2 => 60 # 100 <= s /\ s < 70 # 100
  | Tier1 => 50 # 100 <= s /\ s < 60 # 100
  | Denied => s < 50 # 100
  end.

Definition tier_label (b : Bucket) : string :=
  match b with
  | Tier3 => "Tier 3 (Premium) - CFA 70-100%"
  | Tier2 => "Tier 2 (Standard) - CFA 60-69%"
  | Tier1 => "Tier 1 (Starter) - CFA 50-59%"
  | Denied => "Denied - CFA <50%"
  end.

Definition recommendation_text (b : Bucket) : string :=
  match b with
  | Tier3 =>
    "APPROVE - Alta capacidad de pago. Elegible para Tier 3 ($200, 90 días)."
  | Tier2 =>
    "APPROVE - Buena capacidad de pago. Elegible para Tier 2 ($150, 60 días)."
  | Tier1 =>
    "CONDITIONAL - Capacidad marginal. Solo Tier 1 ($100, 30 días)."
  | Denied =>
    "DENY - Capacidad insuficiente. Balance no puede cubrir parcels consistentemente."
  end.

(** Runs of consecutive ones. *)
Definition all_ones (l : list Q) : Prop := Forall (fun v => v == 1) l.

Definition no_ones (l : list Q) : Prop := Forall (fun v => ~ v == 1) l.

Definition is_run (arr : list Q) (k : nat) : Prop :=
  exists pre ones post,
    arr = pre ++ ones ++ post /\ length ones = k /\ all_ones ones.

Definition longest_run (arr : list Q) (m : nat) : Prop :=
  is_run arr m /\ forall k, is_run arr k -> (k <= m)%nat.

(** The longest run of ones in [l], a run at the very start of [l]
    counting [c] ones more (those seen just before [l]). *)
Fixpoint runs_max (c : nat) (l : list Q) : nat :=
  match l with
  | [] => c
  | v :: t => if Qeq_bool v 1 then runs_max (S c) t
              else Nat.max c (runs_max O t)
  end.








(** ** Inputs *)

(** The input the engine accepts: every required column, 90 rows or
    more. *)
Definition valid_input (df : DataFrame) : Prop :=
  missing_cols df = [] /\ (90 <= length (rows df))%nat.


(** The frame [__init__] keeps: sorted, with [daily_net] derived unless
    it was supplied. *)
Definition prepared_rows (df : DataFrame) : list Row :=
  let s := sort_values (rows df) in
  if has_col df "daily_net" then s else map set_daily_net s.

(** The frame after [can_pay] has been ensured. *)
Definition scored_rows (df : DataFrame) (parcel : Q) : list Row :=
  if has_col df "can_pay" then prepared_rows df
  else map (set_can_pay parcel) (prepared_rows df).

(** The [can_pay] value the engine works with for a record of the input:
    the supplied one if the column exists, the rule otherwise. *)
Definition can_pay_used (df : DataFrame) (parcel : Q) (r : Row) : Q :=
  if has_col df "can_pay" then can_pay r
  else can_pay_rule parcel (daily_balance r).

(** The [daily_net] value the engine works with. *)
Definition daily_net_used (df : DataFrame) (r : Row) : Q :=
  if has_col df "daily_net" then daily_net r
  else daily_income r - daily_expenses r.

(** The columns of the frame [__init__] keeps, and of the frame after
    [can_pay] has been ensured. *)
Definition prepared_cols (df : DataFrame) : list string :=
  if has_col df "daily_net" then columns df
  else columns df ++ ["daily_net"].

Definition prepared (df : DataFrame) : DataFrame :=
  mkFrame (prepared_cols df) (prepared_rows df).

Definition scored (df : DataFrame) (parcel : Q) : DataFrame :=
  if has_col df "can_pay" then prepared df
  else setcol (prepared df) "can_pay" (set_can_pay parcel).

(** The three series the engine aggregates, in date order. *)
Definition can_pay_series (df : DataFrame) (parcel : Q) : list Q :=
  map (can_pay_used df parcel) (sort_values (rows df)).

Definition balance_series (df : DataFrame) : list Q :=
  map daily_balance (sort_values (rows df)).

Definition net_series (df : DataFrame) : list Q :=
  map (daily_net_used df) (sort_values (rows df)).

(** The unrounded rates and their weighted combination. *)
Definition rate_90 (df : DataFrame) (parcel : Q) : Q :=
  Qsum (last_n 90 (can_pay_series df parcel)) / 90.

Definition rate_6m (df : DataFrame) (parcel : Q) : Q :=
  Qsum (can_pay_series df parcel) / Qlen (rows df).

Definition weighted_score (df : DataFrame) (parcel : Q) : Q :=
  (70 # 100) * rate_90 df parcel + (30 # 100) * rate_6m df parcel.

(** ** Sample series *)

Definition base_cols : list string :=
  ["date"; "daily_balance"; "daily_income"; "daily_expenses"].

(** [n] consecutive days from [start], all with balance [bal]. *)
Definition const_rows (n : nat) (start : Z) (bal : Q) : list Row :=
  map (fun i => mkRow (start + Z.of_nat i) bal 0 0 0 0) (seq 0 n).

(** 90 days at balance 100. *)
Definition series_90 : DataFrame := mkFrame base_cols (const_rows 90 0 100).

(** 90 days at balance 10. *)
Definition series_90_low : DataFrame :=
  mkFrame base_cols (const_rows 90 0 10).

(** 89 days at balance 100. *)
Definition series_89 : DataFrame := mkFrame base_cols (const_rows 89 0 100).

(** 180 days given newest first: 90 days at 100 after 90 days at 10. *)
Definition series_180 : DataFrame :=
  mkFrame base_cols (const_rows 90 90 100 ++ const_rows 90 0 10).


(** 89 days without the [daily_balance] column. *)
Definition series_89_no_balance : DataFrame :=
  mkFrame ["date"; "daily_income"; "daily_expenses"] (const_rows 89 0 100).

(** 90 days without the [daily_balance] column. *)
Definition series_90_no_balance : DataFrame :=
  mkFrame ["date"; "daily_income"; "daily_expenses"] (const_rows 90 0 100).

(** 90 days without the [date] column. *)
Definition series_90_no_date : DataFrame :=
  mkFrame ["daily_balance"; "daily_income"; "daily_expenses"]
          (const_rows 90 0 100).



(** ** The closed form of [calculate_cfa] on any calculator *)

(** The calculator once [can_pay] has been ensured (lines 85-86). *)
Definition ensure_can_pay (self : CFACalculator) : CFACalculator :=
  if has_col (data self) "can_pay" then self
  else mkCalc (setcol (data self) "can_pay"
                 (set_can_pay (biweekly_parcel self)))
              (biweekly_parcel self).

(** What [calculate_temporal_metrics] returns for a calculator that has
    its [can_pay] column. *)
Definition metrics_of (self : CFACalculator) : Metrics :=
  let cp := map can_pay (rows (data self)) in
  let p90 := Qsum (tail 90 cp) / 90 in
  let p6m := Qsum cp / Qlen (rows (data self)) in
  mkMetrics (round p90 4) (round p6m 4)
            (round (p90 * (70 # 100) + p6m * (30 # 100)) 4)
            (length (rows (data self))) (biweekly_parcel self).

(** What [calculate_cfa] returns for such a calculator. *)
Definition result_of (self : CFACalculator) : CFAResult :=
  let bal := map daily_balance (rows (data self)) in
  let net := map daily_net (rows (data self)) in
  mkResult (metrics_of self)
    (_max_consecutive_ones (tail 90 (map can_pay (rows (data self)))))
    (mkBalanceStats (round (mean bal) 2) (round (series_min bal) 2)
                    (round (series_max bal) 2)
                    (round_sqrt (sample_variance bal) 2))
    (mkNetStats (round (mean net) 2)
                (round (count_positive net / Qlen (rows (data self))) 4))
    (_determine_risk_tier (cfa_score (metrics_of self)))
    (_get_recommendation (cfa_score (metrics_of self))).

(** ** Plotting: the series handed to the three charts

    [plot_temporal_analysis] is modelled by the data it reads and draws;
    the figure itself is outside the model. *)

Record PlotData : Type := mkPlot {
  balance_line : list (Z * Q);       (* chart 1: date against balance *)
  parcel_level : Q;                  (* chart 1: the horizontal line *)
  bars : list (Z * Q * string);      (* chart 2: date, height, colour *)
  rolling_cfa : list (Z * Q)         (* chart 3: 30-day rolling mean *)
}.

(** [s.rolling(window=w, min_periods=1).mean()]: at each position, the
    mean of the last [w] values up to and including it (of all of them
    while there are fewer). *)
Definition rolling_mean (w : nat) (s : list Q) : list Q :=
  map (fun i => mean (tail w (firstn (S i) s))) (seq 0 (length s)).

Definition bar_colour (x : Q) : string :=
  if Qeq_bool x 0 then "#dc3545" else "#17CA60".

Definition plot_temporal_analysis (self : CFACalculator) : Res PlotData :=
  d <- getcol (data self) "date" date ;;
  b <- getcol (data self) "daily_balance" daily_balance ;;
  cp <- getcol (data self) "can_pay" can_pay ;;
  let colors := map bar_colour cp in
  let rolling := rolling_mean 30 cp in
  ret (mkPlot (combine d b) (biweekly_parcel self)
              (combine (combine d cp) colors) (combine d rolling)).

(** ** Export: Python values and [convert_to_native] *)

Inductive NpScalar : Type :=
| np_int64 (z : Z)
| np_float64 (q : Q)
| np_bool (b : bool).

#[warnings="-register-all"] Inductive PyVal : Type :=
| PyDict (items : list (string * PyVal))
| PyList (elems : list PyVal)
| PyInt (z : Z)
| PyFloat (q : Q)
| PyStr (s : string)
| PyBool (b : bool)
| PyNone
| NpVal (s : NpScalar)
| NpArray (a : list NpScalar).

(** [a.tolist()] turns every element into the built-in value. *)
Definition item (s : NpScalar) : PyVal :=
  match s with
  | np_int64 z => PyInt z
  | np_float64 q => PyFloat q
  | np_bool b => PyBool b
  end.

Fixpoint convert_to_native (obj : PyVal) : PyVal :=
  match obj with
  | PyDict items =>
    PyDict (map (fun kv => match kv with
                           | (k, v) => (k, convert_to_native v)
                           end) items)
  | NpVal (np_int64 z) => PyInt z
  | NpVal (np_float64 q) => PyFloat q
  | NpArray a => PyList (map item a)
  | other => other
  end.

(** No numpy value anywhere in the tree: what [json.dump] accepts. *)
Fixpoint numpy_free (v : PyVal) : bool :=
  match v with
  | PyDict items =>
    forallb (fun kv => match kv with (_, x) => numpy_free x end) items
  | PyList elems => forallb numpy_free elems
  | NpVal _ => false
  | NpArray _ => false
  | _ => true
  end.

(** The trees [convert_to_native] cleans completely: below dictionaries
    only, every list is already free of numpy values and no numpy boolean
    occurs. *)
Fixpoint convertible (v : PyVal) : bool :=
  match v with
  | PyDict items =>
    forallb (fun kv => match kv with (_, x) => convertible x end) items
  | PyList elems => forallb numpy_free elems
  | NpVal (np_bool _) => false
  | _ => true
  end.

(** The keys of a tree, dictionary by dictionary, in order. *)
Fixpoint key_shape (v : PyVal) : list (string * list string) :=
  match v with
  | PyDict items =>
    flat_map (fun kv => match kv with
                        | (k, x) => (k, map fst (key_shape x)) :: nil
                        end) items
  | _ => nil
  end.

(** The dictionary [calculate_cfa] returns.  Values that come out of
    pandas or numpy arithmetic are numpy scalars; lengths, the loop
    counter and the strings are built-in values. *)
Definition results_dict (r : CFAResult) : PyVal :=
  PyDict
    [("pct_90", NpVal (np_float64 (pct_90 (metrics r))));
     ("pct_6m", NpVal (np_float64 (pct_6m (metrics r))));
     ("cfa_score", NpVal (np_float64 (cfa_score (metrics r))));
     ("total_days", PyInt (Z.of_nat (total_days (metrics r))));
     ("biweekly_parcel", PyFloat (biweekly_parcel_out (metrics r)));
     ("max_consecutive_can_pay_90d",
      PyInt (Z.of_nat (max_consecutive_can_pay_90d r)));
     ("balance_stats",
      PyDict
        [("avg_balance", NpVal (np_float64 (avg_balance (balance_stats r))));
         ("min_balance", NpVal (np_float64 (min_balance (balance_stats r))));
         ("max_balance", NpVal (np_float64 (max_balance (balance_stats r))));
         ("std_balance", NpVal (np_float64 (std_balance (balance_stats r))))]);
     ("net_stats",
      PyDict
        [("avg_daily_net", NpVal (np_float64 (avg_daily_net (net_stats r))));
         ("positive_days_pct",
          NpVal (np_float64 (positive_days_pct (net_stats r))))]);
     ("risk_tier", PyStr (risk_tier r));
     ("recommendation", PyStr (recommendation r))].

(** [export_results]: the value returned, the tree given to [json.dump],
    and the calculator afterwards. *)
Definition export_results (self : CFACalculator)
    : Res (CFAResult * PyVal * CFACalculator) :=
  r <- calculate_cfa self ;;
  let results := fst r in
  let results_serializable := convert_to_native (results_dict results) in
  ret (results, results_serializable, snd r).

(** ** Underwriting rules *)

Definition get_underwriting_rules : PyVal :=
  PyDict
    [("tier_3",
      PyDict [("cfa_min", PyFloat (70 # 100)); ("loan_amount", PyInt 200);
              ("term_days", PyInt 90);
              ("biweekly_parcel", PyFloat (3580 # 100));
              ("description",
               PyStr "Premium - Alta capacidad de pago consistente")]);
     ("tier_2",
      PyDict [("cfa_min", PyFloat (60 # 100)); ("loan_amount", PyInt 150);
              ("term_days", PyInt 60);
              ("biweekly_parcel", PyFloat (3972 # 100));
              ("description", PyStr "Standard - Buena capacidad de pago")]);
     ("tier_1",
      PyDict [("cfa_min", PyFloat (50 # 100)); ("loan_amount", PyInt 100);
              ("term_days", PyInt 30);
              ("biweekly_parcel", PyFloat (5198 # 100));
              ("description", PyStr "Starter - Capacidad marginal de pago")]);
     ("deny",
      PyDict [("cfa_max", PyFloat (50 # 100));
              ("description",
               PyStr "Balance insuficiente para cubrir parcels consistentemente")])].

(** [d[k]] on a dictionary value. *)
Fixpoint assoc (k : string) (items : list (string * PyVal)) : option PyVal :=
  match items with
  | [] => None
  | (k', v) :: t => if String.eqb k k' then Some v else assoc k t
  end.

Definition py_get (v : PyVal) (k : string) : option PyVal :=
  match v with
  | PyDict items => assoc k items
  | _ => None
  end.

(** [rules[tier][field]] as a number. *)
Definition rule_threshold (tier field : string) : option Q :=
  match py_get get_underwriting_rules tier with
  | Some r => match py_get r field with
              | Some (PyFloat q) => Some q
              | _ => None
              end
  | None => None
  end.

(** ** Sample data *)

Record TierParams : Type := mkParams {
  base_balance : Z;
  income_freq : Z;
  income_amt : Z;
  daily_expense : Z
}.

Definition tier_params (tier : Z) : option TierParams :=
  if (tier =? 1)%Z then Some (mkParams 300 14 600 25)
  else if (tier =? 2)%Z then Some (mkParams 500 14 800 30)
  else if (tier =? 3)%Z then Some (mkParams 800 14 1000 35)
  else None.

(** [tier_params.get(tier, tier_params[1])]. *)
Definition params_for (tier : Z) : TierParams :=
  match tier_params tier with
  | Some p => p
  | None => mkParams 300 14 600 25
  end.

(** The loop over the days, from day [i] on, [n] days to go.  [draw k]
    is what the [k]-th call of [np.random.randint(-10, 15)] returns and
    [start] the date of the first day. *)
Fixpoint sample_rows (params : TierParams) (start : Z) (draw : nat -> Z)
    (i n : nat) (current_balance : Z) : list Row :=
  match n with
  | O => []
  | S n' =>
    let daily_income :=
      if (Z.of_nat i mod income_freq params =? 0)%Z
      then income_amt params else 0%Z in
    let daily_expenses := (daily_expense params + draw i)%Z in
    let current_balance :=
      (current_balance + daily_income - daily_expenses)%Z in
    let current_balance :=
      if (current_balance <? -100)%Z then 50%Z else current_balance in
    mkRow (start + Z.of_nat i) (inject_Z current_balance)
          (inject_Z daily_income) (inject_Z daily_expenses) 0 0
    :: sample_rows params start draw (S i) n' current_balance
  end.

(** [pd.DataFrame(data)]: the keys of the records are the columns; no
    record, no column. *)
Definition frame_of_records (records : list Row) : DataFrame :=
  mkFrame (match records with
           | [] => []
           | _ => ["date"; "daily_balance"; "daily_income"; "daily_expenses"]
           end) records.

Definition generate_sample_data (days : nat) (tier : Z) (start : Z)
    (draw : nat -> Z) : DataFrame :=
  let params := params_for tier in
  frame_of_records
    (sample_rows params start draw 0 days (base_balance params)).

(** Every draw is one [np.random.randint(-10, 15)] can return. *)
Definition draws_in_range (draw : nat -> Z) : Prop :=
  forall k, (-10 <= draw k < 15)%Z.

(** ** The script

    The engine calls of the [__main__] block, in order, for the sample
    of 180 days of tier 2 and the parcel 39.72.  [generate_report_table]
    and [export_results] each call [calculate_cfa] again. *)
Definition main_block (start : Z) (draw : nat -> Z)
    : Res (CFAResult * CFAResult * CFAResult * PyVal * PlotData) :=
  let sample_data := generate_sample_data 180 2 start draw in
  calculator <- __init__ sample_data (3972 # 100) ;;
  r1 <- calculate_cfa calculator ;;
  r2 <- calculate_cfa (snd r1) ;;
  r3 <- export_results (snd r2) ;;
  p <- plot_temporal_analysis (snd r3) ;;
  ret (fst r1, fst r2, fst (fst r3), snd (fst r3), p).

(** A series in strict date order: ascending, no date twice. *)
Definition date_strictly_ascending (l : list Row) : Prop :=
  StronglySorted (fun a b => (date a < date b)%Z) l.

(** 97 days at parcel 1: 7 paying days, 46 days without, 44 paying
    days. *)
Definition series_97 : DataFrame :=
  mkFrame base_cols
          (const_rows 7 0 1 ++ const_rows 46 7 0 ++ const_rows 44 53 1).

(** A small calculator: three records, with [daily_net] supplied and no
    [can_pay] yet. *)
Definition calc_3 : CFACalculator :=
  mkCalc (mkFrame ["date"; "daily_balance"; "daily_net"]
                  [mkRow 1 100 0 0 5 0; mkRow 2 10 0 0 (-3) 0;
                   mkRow 3 60 0 0 2 0])
         50.

(** * Proofs *)

#[local] Arguments String.eqb : simpl never.
#[local] Arguments has_col : simpl never.

(** Decide comparisons between column names that are literals. *)
Ltac str_eval :=
  repeat match goal with
         | |- context [String.eqb ?a ?b] =>
           let v := eval vm_compute in (String.eqb a b) in
           match v with
           | true => change (String.eqb a b) with true
           | false => change (String.eqb a b) with false
           end
         end.

(** ** Comparisons on rationals *)

Lemma Qle_bool_false (a b : Q) : Qle_bool a b = false -> b < a.
Proof.
  intro H. destruct (Qlt_le_dec b a) as [Hlt | Hle]; [exact Hlt |].
  apply Qle_bool_iff in Hle. congruence.
Qed.

Lemma Qle_bool_comp (a b b' : Q) : b == b' -> Qle_bool a b = Qle_bool a b'.
Proof.
  intro E. destruct (Qle_bool a b) eqn:H1, (Qle_bool a b') eqn:H2; auto.
  - apply Qle_bool_iff in H1. apply Qle_bool_false in H2.
    rewrite E in H1. exfalso. exact (Qlt_not_le _ _ H2 H1).
  - apply Qle_bool_iff in H2. apply Qle_bool_false in H1.
    rewrite <- E in H2. exfalso. exact (Qlt_not_le _ _ H1 H2).
Qed.

Lemma one_neq_zero_Q : (1 : Q) <> 0.
Proof. discriminate. Qed.

(** ** The tier classifier *)

Lemma in_bucket_unique (s : Q) (b b' : Bucket) :
  in_bucket b s -> in_bucket b' s -> b' = b.
Proof.
  destruct b, b'; simpl; intros H H'; try reflexivity; exfalso;
    repeat match goal with
           | h : _ /\ _ |- _ => destruct h
           end; lra.
Qed.

Lemma classifier_bucket (s : Q) :
  exists b, in_bucket b s /\
            _determine_risk_tier s = tier_label b /\
            _get_recommendation s = recommendation_text b.
Proof.
  unfold _determine_risk_tier, _get_recommendation.
  destruct (Qle_bool (70 # 100) s) eqn:H3.
  { exists Tier3. apply Qle_bool_iff in H3. simpl. auto. }
  apply Qle_bool_false in H3.
  destruct (Qle_bool (60 # 100) s) eqn:H2.
  { exists Tier2. apply Qle_bool_iff in H2. simpl. auto. }
  apply Qle_bool_false in H2.
  destruct (Qle_bool (50 # 100) s) eqn:H1.
  { exists Tier1. apply Qle_bool_iff in H1. simpl. auto. }
  apply Qle_bool_false in H1.
  exists Denied. simpl. auto.
Qed.

Lemma tier_label_injective (b b' : Bucket) :
  tier_label b = tier_label b' -> b = b'.
Proof. destruct b, b'; simpl; intro H; try reflexivity; discriminate H. Qed.

Lemma recommendation_text_injective (b b' : Bucket) :
  recommendation_text b = recommendation_text b' -> b = b'.
Proof. destruct b, b'; simpl; intro H; try reflexivity; discriminate H. Qed.

(** C2.  Every score falls into exactly one of the four buckets of the
    tier table (lower bounds inclusive, no gap, no overlap); the risk tier
    and the recommendation the code returns are those of that one bucket,
    so they depend on the score alone and are paired one to one. *)
Theorem C2_tier_and_recommendation_share_one_bucket (s : Q) :
  exists b : Bucket,
    in_bucket b s /\
    (forall b', in_bucket b' s -> b' = b) /\
    _determine_risk_tier s = tier_label b /\
    _get_recommendation s = recommendation_text b /\
    (forall s', s' == s ->
       _determine_risk_tier s' = _determine_risk_tier s /\
       _get_recommendation s' = _get_recommendation s) /\
    (forall b', tier_label b' = tier_label b <->
                recommendation_text b' = recommendation_text b).
Proof.
  destruct (classifier_bucket s) as [b [Hb [Ht Hr]]].
  exists b. repeat split; auto.
  - intros b' Hb'. exact (in_bucket_unique s b b' Hb Hb').
  - unfold _determine_risk_tier.
    rewrite !(Qle_bool_comp _ s' s) by assumption. reflexivity.
  - unfold _get_recommendation.
    rewrite !(Qle_bool_comp _ s' s) by assumption. reflexivity.
  - intro E. apply tier_label_injective in E. now subst.
  - intro E. apply recommendation_text_injective in E. now subst.
Qed.

(** ** Columns *)

Lemma has_col_setcol (df : DataFrame) (n m : string) (f : Row -> Row) :
  has_col (setcol df n f) m = has_col df m || String.eqb m n.
Proof.
  unfold setcol, has_col. simpl.
  destruct (existsb (String.eqb n) (columns df)) eqn:Hn.
  - destruct (String.eqb m n) eqn:E.
    + apply String.eqb_eq in E. subst m. rewrite Hn. reflexivity.
    + now rewrite orb_false_r.
  - rewrite existsb_app. simpl. now rewrite orb_false_r.
Qed.

Lemma rows_setcol (df : DataFrame) (n : string) (f : Row -> Row) :
  rows (setcol df n f) = map f (rows df).
Proof. reflexivity. Qed.

Lemma getcol_present {A : Type} (df : DataFrame) (n : string)
    (f : Row -> A) :
  has_col df n = true -> getcol df n f = inr (map f (rows df)).
Proof. unfold getcol. now intros ->. Qed.

Lemma getcol_absent {A : Type} (df : DataFrame) (n : string)
    (f : Row -> A) :
  has_col df n = false -> getcol df n f = inl (KeyError n).
Proof. unfold getcol. now intros ->. Qed.

Lemma missing_cols_nil (df : DataFrame) :
  missing_cols df = [] <->
  has_col df "date" = true /\ has_col df "daily_balance" = true /\
  has_col df "daily_income" = true /\ has_col df "daily_expenses" = true.
Proof.
  unfold missing_cols, required_cols. simpl.
  destruct (has_col df "date"), (has_col df "daily_balance"),
    (has_col df "daily_income"), (has_col df "daily_expenses"); simpl;
    split; intro H; try discriminate H; auto;
    destruct H as [? [? [? ?]]]; discriminate.
Qed.

Lemma map_can_pay_set_can_pay (p : Q) (l : list Row) :
  map can_pay (map (set_can_pay p) l)
  = map (fun r => can_pay_rule p (daily_balance r)) l.
Proof. rewrite map_map. reflexivity. Qed.

(** ** The daily affordability classifier *)

Lemma can_pay_rule_one (p b : Q) : can_pay_rule p b = 1 <-> p <= b.
Proof.
  unfold can_pay_rule. destruct (Qle_bool p b) eqn:H.
  - apply Qle_bool_iff in H. tauto.
  - apply Qle_bool_false in H. split; [discriminate |].
    intro H'. exfalso. exact (Qlt_not_le _ _ H H').
Qed.

Lemma can_pay_rule_zero (p b : Q) : can_pay_rule p b = 0 <-> ~ p <= b.
Proof.
  unfold can_pay_rule. destruct (Qle_bool p b) eqn:H.
  - apply Qle_bool_iff in H. split; [discriminate | tauto].
  - apply Qle_bool_false in H. split; [| reflexivity].
    intros _ H'. exact (Qlt_not_le _ _ H H').
Qed.

(** C4.  [calculate_can_pay] gives every record the value 1 exactly when
    its balance reaches the parcel and 0 otherwise, a balance equal to the
    parcel counting as 1; the value of a record is a function of that
    record's balance and the parcel only. *)
Theorem C4_can_pay_is_the_per_record_threshold (self : CFACalculator) :
  has_col (data self) "daily_balance" = true ->
  exists s self',
    calculate_can_pay self = inr (s, self') /\
    map can_pay (rows (data self')) = s /\
    has_col (data self') "can_pay" = true /\
    s = map (fun r => can_pay_rule (biweekly_parcel self) (daily_balance r))
            (rows (data self)) /\
    forall i r, nth_error (rows (data self)) i = Some r ->
      exists v, nth_error s i = Some v /\
        (v = 1 <-> biweekly_parcel self <= daily_balance r) /\
        (v = 0 <-> ~ biweekly_parcel self <= daily_balance r) /\
        (daily_balance r == biweekly_parcel self -> v = 1).
Proof.
  intro Hb. unfold calculate_can_pay.
  rewrite (getcol_present _ _ _ Hb). simpl.
  assert (Hc : has_col (setcol (data self) "can_pay"
                          (set_can_pay (biweekly_parcel self))) "can_pay"
               = true).
  { rewrite has_col_setcol. rewrite String.eqb_refl. apply orb_true_r. }
  rewrite (getcol_present _ _ _ Hc). simpl.
  eexists. eexists. split; [reflexivity |]. simpl.
  split; [reflexivity |]. split; [exact Hc |].
  split; [apply map_can_pay_set_can_pay |].
  intros i r Hi. exists (can_pay_rule (biweekly_parcel self) (daily_balance r)).
  split.
  - rewrite map_can_pay_set_can_pay.
    rewrite nth_error_map, Hi. reflexivity.
  - split; [apply can_pay_rule_one |]. split; [apply can_pay_rule_zero |].
    intro E. apply can_pay_rule_one. rewrite E. apply Qle_refl.
Qed.

(** ** The streak counter *)

Lemma runs_max_ge (l : list Q) : forall c, (c <= runs_max c l)%nat.
Proof.
  induction l as [| v t IH]; intro c; simpl; [lia |].
  destruct (Qeq_bool v 1).
  - specialize (IH (S c)). lia.
  - lia.
Qed.

(** The loop of [_max_consecutive_ones], started from any state whose
    current count does not exceed its maximum. *)
Lemma fold_step_count (l : list Q) : forall mx c,
  (c <= mx)%nat ->
  fst (fold_left step_count l (mx, c)) = Nat.max mx (runs_max c l).
Proof.
  induction l as [| v t IH]; intros mx c Hc; simpl.
  - lia.
  - destruct (Qeq_bool v 1).
    + rewrite IH by lia. pose proof (runs_max_ge t (S c)). lia.
    + rewrite IH by lia. lia.
Qed.

Lemma max_consecutive_ones_runs_max (arr : list Q) :
  _max_consecutive_ones arr = runs_max O arr.
Proof.
  unfold _max_consecutive_ones. rewrite fold_step_count by lia. lia.
Qed.

Lemma runs_max_upper (l : list Q) : forall c pre ones post,
  l = pre ++ ones ++ post -> all_ones ones ->
  (length ones <= runs_max c l)%nat /\
  (pre = [] -> (c + length ones <= runs_max c l)%nat).
Proof.
  induction l as [| v t IH]; intros c pre ones post E Hones.
  - destruct pre; [| discriminate E]. destruct ones; [| discriminate E].
    simpl. lia.
  - simpl. destruct (Qeq_bool v 1) eqn:Hv.
    + destruct pre as [| x pre'].
      * destruct ones as [| o ones'].
        -- simpl. pose proof (runs_max_ge t (S c)). lia.
        -- simpl in E. injection E as _ E.
           inversion Hones as [| ? ? _ Hones']. subst.
           destruct (IH (S c) [] ones' post eq_refl Hones') as [_ H].
           specialize (H eq_refl). simpl. lia.
      * simpl in E. injection E as _ E.
        destruct (IH (S c) pre' ones post E Hones) as [H _].
        split; [exact H | discriminate].
    + destruct pre as [| x pre'].
      * destruct ones as [| o ones'].
        -- simpl. lia.
        -- simpl in E. injection E as E1 _. subst o.
           inversion Hones as [| ? ? Ho _]. subst.
           apply Qeq_bool_iff in Ho. congruence.
      * simpl in E. injection E as _ E.
        destruct (IH O pre' ones post E Hones) as [H _].
        split; [lia | discriminate].
Qed.

Lemma is_run_cons (v : Q) (t : list Q) (k : nat) :
  is_run t k -> is_run (v :: t) k.
Proof.
  intros [pre [ones [post [E [Hl Ho]]]]].
  exists (v :: pre), ones, post. subst t. auto.
Qed.

Lemma runs_max_attained (l : list Q) : forall c,
  (exists ones post, l = ones ++ post /\ all_ones ones /\
                     runs_max c l = (c + length ones)%nat) \/
  is_run l (runs_max c l).
Proof.
  induction l as [| v t IH]; intro c; simpl.
  - left. exists [], []. repeat split; [constructor | simpl; lia].
  - destruct (Qeq_bool v 1) eqn:Hv.
    + destruct (IH (S c)) as [[ones [post [E [Ho Hr]]]] | Hrun].
      * left. exists (v :: ones), post. subst t. repeat split.
        -- constructor; [now apply Qeq_bool_iff | exact Ho].
        -- simpl. lia.
      * right. now apply is_run_cons.
    + destruct (Nat.max_spec c (runs_max O t)) as [[Hlt ->] | [Hge ->]].
      * right. apply is_run_cons.
        destruct (IH O) as [[ones [post [E [Ho Hr]]]] | Hrun]; [| exact Hrun].
        exists [], ones, post. simpl. repeat split; auto.
      * left. exists [], (v :: t). repeat split; [constructor | simpl; lia].
Qed.

Lemma is_run_length (arr : list Q) (k : nat) :
  is_run arr k -> (k <= length arr)%nat.
Proof.
  intros [pre [ones [post [E [Hl _]]]]]. subst arr.
  rewrite !length_app. lia.
Qed.

(** What [_max_consecutive_ones] computes is the length of the longest
    run of ones. *)
Lemma max_consecutive_ones_longest (arr : list Q) :
  longest_run arr (_max_consecutive_ones arr).
Proof.
  rewrite max_consecutive_ones_runs_max. split.
  - destruct (runs_max_attained arr O)
      as [[ones [post [E [Ho Hr]]]] | Hrun]; [| exact Hrun].
    exists [], ones, post. simpl. repeat split; auto.
  - intros k [pre [ones [post [E [Hl Ho]]]]].
    destruct (runs_max_upper arr O pre ones post E Ho) as [H _]. lia.
Qed.

Lemma max_consecutive_ones_bound (arr : list Q) :
  (_max_consecutive_ones arr <= length arr)%nat.
Proof.
  apply is_run_length. apply max_consecutive_ones_longest.
Qed.

Lemma max_consecutive_ones_all (arr : list Q) :
  all_ones arr -> _max_consecutive_ones arr = length arr.
Proof.
  intro H. apply Nat.le_antisymm; [apply max_consecutive_ones_bound |].
  apply (proj2 (max_consecutive_ones_longest arr)).
  exists [], arr, []. rewrite app_nil_r. auto.
Qed.

Lemma max_consecutive_ones_none (arr : list Q) :
  no_ones arr -> _max_consecutive_ones arr = O.
Proof.
  intro H. destruct (max_consecutive_ones_longest arr) as [Hrun _].
  destruct Hrun as [pre [ones [post [E [Hl Ho]]]]].
  destruct ones as [| o ones']; [simpl in Hl; lia |].
  exfalso. inversion Ho as [| ? ? Ho1 _]. subst.
  unfold no_ones in H. rewrite Forall_forall in H.
  apply (H o); [| exact Ho1].
  apply in_or_app. right. left. reflexivity.
Qed.

(** ** Windows *)

Lemma tail_last_n {A : Type} (n : nat) (l : list A) :
  tail n l = last_n n l.
Proof.
  unfold tail, last_n. rewrite firstn_rev, rev_involutive. reflexivity.
Qed.

Lemma tail_length {A : Type} (n : nat) (l : list A) :
  (n <= length l)%nat -> length (tail n l) = n.
Proof. intro H. unfold tail. rewrite length_skipn. lia. Qed.

Lemma tail_all {A : Type} (n : nat) (l : list A) :
  (length l <= n)%nat -> tail n l = l.
Proof.
  intro H. unfold tail. replace (length l - n)%nat with O by lia.
  reflexivity.
Qed.

Lemma tail_map {A B : Type} (f : A -> B) (n : nat) (l : list A) :
  tail n (map f l) = map f (tail n l).
Proof. unfold tail. rewrite length_map. apply skipn_map. Qed.

Lemma tail_incl {A : Type} (n : nat) (l : list A) (x : A) :
  In x (tail n l) -> In x l.
Proof.
  unfold tail. intro H.
  rewrite <- (firstn_skipn (length l - n) l). apply in_or_app. now right.
Qed.

(** ** Sorting by date *)

Lemma insert_by_date_perm (r : Row) (l : list Row) :
  Permutation (r :: l) (insert_by_date r l).
Proof.
  induction l as [| h t IH]; simpl; [reflexivity |].
  destruct (date r <=? date h)%Z; [reflexivity |].
  rewrite perm_swap. now constructor.
Qed.

Lemma sort_values_perm (l : list Row) : Permutation l (sort_values l).
Proof.
  induction l as [| r t IH]; simpl; [constructor |].
  rewrite <- insert_by_date_perm. now constructor.
Qed.

Lemma sort_values_length (l : list Row) :
  length (sort_values l) = length l.
Proof. symmetry. apply Permutation_length. apply sort_values_perm. Qed.

Lemma insert_by_date_sorted (r : Row) (l : list Row) :
  date_ascending l -> date_ascending (insert_by_date r l).
Proof.
  unfold date_ascending.
  induction l as [| h t IH]; intro Hs; simpl.
  - constructor; constructor.
  - destruct (date r <=? date h)%Z eqn:E.
    + apply Z.leb_le in E. constructor; [exact Hs |].
      constructor; [exact E |].
      inversion Hs as [| ? ? _ Hall]. subst.
      rewrite Forall_forall in Hall |- *. intros x Hx.
      specialize (Hall x Hx). unfold date_le in *. lia.
    + apply Z.leb_gt in E. inversion Hs as [| ? ? Ht Hall]. subst.
      constructor; [now apply IH |].
      rewrite Forall_forall in Hall |- *. intros x Hx.
      apply (Permutation_in _ (Permutation_sym (insert_by_date_perm r t)))
        in Hx.
      destruct Hx as [<- | Hx]; [unfold date_le; lia | now apply Hall].
Qed.

Lemma sort_values_sorted (l : list Row) : date_ascending (sort_values l).
Proof.
  induction l as [| r t IH]; simpl; [constructor |].
  now apply insert_by_date_sorted.
Qed.

(** ** Construction and validation *)

Lemma has_col_prepared (df : DataFrame) (n : string) :
  has_col (prepared df) n = has_col df n || String.eqb n "daily_net".
Proof.
  unfold prepared, prepared_cols, has_col. cbn [columns].
  destruct (existsb (String.eqb "daily_net") (columns df)) eqn:Hn.
  - destruct (String.eqb n "daily_net") eqn:E.
    + apply String.eqb_eq in E. subst n. rewrite Hn. reflexivity.
    + now rewrite orb_false_r.
  - rewrite existsb_app. simpl. now rewrite orb_false_r.
Qed.

Lemma prepared_rows_length (df : DataFrame) :
  length (prepared_rows df) = length (rows df).
Proof.
  unfold prepared_rows. destruct (has_col df "daily_net");
    rewrite ?length_map; apply sort_values_length.
Qed.

Lemma missing_cols_prepared (df : DataFrame) :
  missing_cols (prepared df) = missing_cols df.
Proof.
  unfold missing_cols, required_cols. cbn [filter].
  rewrite !has_col_prepared. str_eval. now rewrite !orb_false_r.
Qed.

(** [__init__] up to the call of [_validate_data], when the columns it
    reads on the way exist. *)
Lemma init_reaches_validation (df : DataFrame) (p : Q) :
  has_col df "date" = true ->
  has_col df "daily_net" = true \/
  (has_col df "daily_income" = true /\ has_col df "daily_expenses" = true) ->
  __init__ df p =
  (_ <- _validate_data (mkCalc (prepared df) p) ;;
   ret (mkCalc (prepared df) p)).
Proof.
  intros Hd Hn. unfold __init__.
  rewrite (getcol_present _ _ _ Hd). simpl.
  replace (has_col (mkFrame (columns df) (sort_values (rows df))) "daily_net")
    with (has_col df "daily_net") by reflexivity.
  unfold prepared, prepared_cols, prepared_rows.
  destruct (has_col df "daily_net") eqn:E; simpl; [reflexivity |].
  destruct Hn as [Hn | [Hi He]]; [discriminate |].
  assert (Hi' : has_col (mkFrame (columns df) (sort_values (rows df)))
                  "daily_income" = true) by exact Hi.
  assert (He' : has_col (mkFrame (columns df) (sort_values (rows df)))
                  "daily_expenses" = true) by exact He.
  rewrite (getcol_present _ _ _ Hi'). simpl.
  rewrite (getcol_present _ _ _ He'). simpl.
  unfold setcol. simpl.
  replace (has_col (mkFrame (columns df) (sort_values (rows df))) "daily_net")
    with (has_col df "daily_net") by reflexivity.
  rewrite E. reflexivity.
Qed.

Lemma validate_prepared (df : DataFrame) (p : Q) :
  _validate_data (mkCalc (prepared df) p) =
  if (length (rows df) <? 90)%nat
  then raise (ValueError_min_days (length (rows df)))
  else match missing_cols df with
       | [] => ret tt
       | missing => raise (ValueError_missing_cols missing)
       end.
Proof.
  unfold _validate_data. simpl.
  rewrite prepared_rows_length, missing_cols_prepared. reflexivity.
Qed.

Lemma init_valid (df : DataFrame) (p : Q) :
  valid_input df -> __init__ df p = inr (mkCalc (prepared df) p).
Proof.
  intros [Hm Hl].
  pose proof (proj1 (missing_cols_nil df) Hm) as [Hd [Hb [Hi He]]].
  rewrite init_reaches_validation by auto.
  rewrite validate_prepared, Hm.
  replace (length (rows df) <? 90)%nat with false
    by (symmetry; apply Nat.ltb_ge; exact Hl).
  reflexivity.
Qed.

Lemma init_short (df : DataFrame) (p : Q) :
  has_col df "date" = true ->
  has_col df "daily_net" = true \/
  (has_col df "daily_income" = true /\ has_col df "daily_expenses" = true) ->
  (length (rows df) < 90)%nat ->
  __init__ df p = inl (ValueError_min_days (length (rows df))).
Proof.
  intros Hd Hn Hl. rewrite init_reaches_validation by auto.
  rewrite validate_prepared.
  replace (length (rows df) <? 90)%nat with true
    by (symmetry; apply Nat.ltb_lt; exact Hl).
  reflexivity.
Qed.

(** ** The series the engine aggregates *)

Lemma has_col_scored_can_pay (df : DataFrame) (p : Q) :
  has_col (scored df p) "can_pay" = true.
Proof.
  unfold scored. destruct (has_col df "can_pay") eqn:E.
  - rewrite has_col_prepared, E. reflexivity.
  - rewrite has_col_setcol, String.eqb_refl. apply orb_true_r.
Qed.

Lemma has_col_scored (df : DataFrame) (p : Q) (n : string) :
  has_col df n = true -> has_col (scored df p) n = true.
Proof.
  intro H. unfold scored. destruct (has_col df "can_pay").
  - rewrite has_col_prepared, H. reflexivity.
  - rewrite has_col_setcol, has_col_prepared, H. reflexivity.
Qed.

Lemma has_col_scored_net (df : DataFrame) (p : Q) :
  has_col (scored df p) "daily_net" = true.
Proof.
  unfold scored. destruct (has_col df "can_pay").
  - rewrite has_col_prepared, String.eqb_refl. apply orb_true_r.
  - rewrite has_col_setcol, has_col_prepared, String.eqb_refl.
    rewrite orb_true_r. reflexivity.
Qed.

Lemma rows_scored (df : DataFrame) (p : Q) :
  rows (scored df p) = scored_rows df p.
Proof.
  unfold scored, scored_rows. destruct (has_col df "can_pay"); reflexivity.
Qed.

Lemma scored_rows_length (df : DataFrame) (p : Q) :
  length (scored_rows df p) = length (rows df).
Proof.
  unfold scored_rows. destruct (has_col df "can_pay");
    rewrite ?length_map; apply prepared_rows_length.
Qed.

Lemma scored_can_pay (df : DataFrame) (p : Q) :
  map can_pay (scored_rows df p) = can_pay_series df p.
Proof.
  unfold scored_rows, prepared_rows, can_pay_series, can_pay_used.
  destruct (has_col df "can_pay"), (has_col df "daily_net");
    rewrite ?map_map; reflexivity.
Qed.

Lemma scored_balance (df : DataFrame) (p : Q) :
  map daily_balance (scored_rows df p) = balance_series df.
Proof.
  unfold scored_rows, prepared_rows, balance_series.
  destruct (has_col df "can_pay"), (has_col df "daily_net");
    rewrite ?map_map; reflexivity.
Qed.

Lemma scored_net (df : DataFrame) (p : Q) :
  map daily_net (scored_rows df p) = net_series df.
Proof.
  unfold scored_rows, prepared_rows, net_series, daily_net_used.
  destruct (has_col df "can_pay"), (has_col df "daily_net");
    rewrite ?map_map; reflexivity.
Qed.

Lemma can_pay_series_length (df : DataFrame) (p : Q) :
  length (can_pay_series df p) = length (rows df).
Proof.
  unfold can_pay_series. rewrite length_map. apply sort_values_length.
Qed.

(** ** Rounding respects equality of rationals *)

Lemma round_half_even_comp (x y : Q) :
  x == y -> round_half_even x = round_half_even y.
Proof.
  intro E. unfold round_half_even.
  rewrite (Qfloor_comp x y E).
  assert (E' : x - inject_Z (Qfloor y) == y - inject_Z (Qfloor y))
    by (rewrite E; reflexivity).
  rewrite (Qcompare_comp _ _ E' (1 # 2) (1 # 2) (Qeq_refl _)).
  reflexivity.
Qed.

Lemma round_comp (x y : Q) (n : nat) : x == y -> round x n = round y n.
Proof.
  intro E. unfold round. f_equal. apply round_half_even_comp.
  rewrite E. reflexivity.
Qed.

(** ** The metrics and the result, in closed form *)

Lemma temporal_metrics_prepared (df : DataFrame) (p : Q) :
  has_col df "daily_balance" = true ->
  calculate_temporal_metrics (mkCalc (prepared df) p) =
  inr (mkMetrics (round (rate_90 df p) 4) (round (rate_6m df p) 4)
                 (round (weighted_score df p) 4)
                 (length (rows df)) p,
       mkCalc (scored df p) p).
Proof.
  intro Hb. unfold calculate_temporal_metrics.
  assert (Hens :
    (if has_col (data (mkCalc (prepared df) p)) "can_pay"
     then ret (mkCalc (prepared df) p)
     else r <- calculate_can_pay (mkCalc (prepared df) p) ;; ret (snd r))
    = inr (mkCalc (scored df p) p)).
  { simpl. unfold scored. rewrite has_col_prepared. simpl.
    rewrite orb_false_r. destruct (has_col df "can_pay") eqn:E.
    - reflexivity.
    - unfold calculate_can_pay. simpl.
      assert (Hb' : has_col (prepared df) "daily_balance" = true)
        by (rewrite has_col_prepared, Hb; reflexivity).
      rewrite (getcol_present _ _ _ Hb'). simpl.
      assert (Hc : has_col (setcol (prepared df) "can_pay" (set_can_pay p))
                     "can_pay" = true)
        by (rewrite has_col_setcol, String.eqb_refl; apply orb_true_r).
      rewrite (getcol_present _ _ _ Hc). reflexivity. }
  rewrite Hens. simpl.
  assert (Hc90 : has_col (df_tail 90 (scored df p)) "can_pay" = true)
    by exact (has_col_scored_can_pay df p).
  rewrite (getcol_present _ _ _ Hc90). simpl.
  rewrite (getcol_present _ _ _ (has_col_scored_can_pay df p)). simpl.
  rewrite rows_scored, <- tail_map, scored_can_pay, tail_last_n.
  unfold Qlen. rewrite scored_rows_length.
  unfold ret. do 2 f_equal. f_equal; try reflexivity.
  apply round_comp. unfold weighted_score, rate_90, rate_6m, Qlen. ring.
Qed.

Lemma calculate_cfa_prepared (df : DataFrame) (p : Q) :
  valid_input df ->
  calculate_cfa (mkCalc (prepared df) p) =
  inr (mkResult
         (mkMetrics (round (rate_90 df p) 4) (round (rate_6m df p) 4)
                    (round (weighted_score df p) 4) (length (rows df)) p)
         (_max_consecutive_ones (last_n 90 (can_pay_series df p)))
         (mkBalanceStats (round (mean (balance_series df)) 2)
                         (round (series_min (balance_series df)) 2)
                         (round (series_max (balance_series df)) 2)
                         (round_sqrt (sample_variance (balance_series df)) 2))
         (mkNetStats (round (mean (net_series df)) 2)
                     (round (count_positive (net_series df)
                             / Qlen (rows df)) 4))
         (_determine_risk_tier (round (weighted_score df p) 4))
         (_get_recommendation (round (weighted_score df p) 4)),
       mkCalc (scored df p) p).
Proof.
  intros [Hm Hl].
  pose proof (proj1 (missing_cols_nil df) Hm) as [Hd [Hb [Hi He]]].
  unfold calculate_cfa. rewrite (temporal_metrics_prepared df p Hb). simpl.
  assert (Hc90 : has_col (df_tail 90 (scored df p)) "can_pay" = true)
    by exact (has_col_scored_can_pay df p).
  rewrite (getcol_present _ _ _ Hc90). simpl.
  rewrite (getcol_present _ _ _ (has_col_scored df p _ Hb)). simpl.
  rewrite (getcol_present _ _ _ (has_col_scored_net df p)). simpl.
  rewrite rows_scored, <- tail_map, scored_can_pay, tail_last_n.
  rewrite scored_balance, scored_net.
  unfold Qlen. rewrite scored_rows_length. reflexivity.
Qed.

Lemma score_valid (df : DataFrame) (p : Q) :
  valid_input df ->
  score df p =
  inr (mkResult
         (mkMetrics (round (rate_90 df p) 4) (round (rate_6m df p) 4)
                    (round (weighted_score df p) 4) (length (rows df)) p)
         (_max_consecutive_ones (last_n 90 (can_pay_series df p)))
         (mkBalanceStats (round (mean (balance_series df)) 2)
                         (round (series_min (balance_series df)) 2)
                         (round (series_max (balance_series df)) 2)
                         (round_sqrt (sample_variance (balance_series df)) 2))
         (mkNetStats (round (mean (net_series df)) 2)
                     (round (count_positive (net_series df)
                             / Qlen (rows df)) 4))
         (_determine_risk_tier (round (weighted_score df p) 4))
         (_get_recommendation (round (weighted_score df p) 4))).
Proof.
  intro Hv. unfold score. rewrite (init_valid df p Hv). simpl.
  rewrite (calculate_cfa_prepared df p Hv). reflexivity.
Qed.

(** ** Sums *)

Lemma fold_left_Qplus (l : list Q) : forall a,
  fold_left Qplus l a == a + Qsum l.
Proof.
  unfold Qsum. induction l as [| x t IH]; intro a; simpl.
  - ring.
  - rewrite (IH (a + x)), (IH (0 + x)). ring.
Qed.

Lemma Qsum_cons (x : Q) (l : list Q) : Qsum (x :: l) == x + Qsum l.
Proof. unfold Qsum at 1. simpl. rewrite fold_left_Qplus. ring. Qed.


Lemma Qsum_bounds (l : list Q) :
  Forall (fun v => 0 <= v /\ v <= 1) l -> 0 <= Qsum l /\ Qsum l <= Qlen l.
Proof.
  induction 1 as [| x t [H0 H1] _ [IH0 IH1]].
  - unfold Qsum, Qlen. simpl. split; apply Qle_refl.
  - rewrite Qsum_cons. unfold Qlen in *.
    change (length (x :: t)) with (S (length t)).
    rewrite Nat2Z.inj_succ, <- Z.add_1_r, inject_Z_plus.
    change (inject_Z 1) with 1. split; lra.
Qed.


Lemma last_n_length {A : Type} (n : nat) (l : list A) :
  (n <= length l)%nat -> length (last_n n l) = n.
Proof. rewrite <- tail_last_n. apply tail_length. Qed.


(** ** Claims on the temporal aggregate *)


(** C3.  With every required field present, fewer than 90 records make
    the engine fail with the history-length error (no calculator is built
    and no score produced), 89 records included; exactly 90 records give
    a complete result. *)
Theorem C3_history_length_boundary (df : DataFrame) (p : Q) :
  missing_cols df = [] ->
  ((length (rows df) < 90)%nat ->
   __init__ df p = inl (ValueError_min_days (length (rows df))) /\
   score df p = inl (ValueError_min_days (length (rows df)))) /\
  (length (rows df) = 90%nat ->
   exists res, score df p = inr res /\ total_days (metrics res) = 90%nat).
Proof.
  intro Hm.
  pose proof (proj1 (missing_cols_nil df) Hm) as [Hd [Hb [Hi He]]].
  split.
  - intro Hl.
    assert (E : __init__ df p = inl (ValueError_min_days (length (rows df))))
      by (apply init_short; auto).
    split; [exact E |]. unfold score. rewrite E. reflexivity.
  - intro Hl.
    assert (Hv : valid_input df) by (split; [exact Hm | lia]).
    eexists. split; [apply (score_valid df p Hv) |]. exact Hl.
Qed.

(** C6.  On every valid input the reported streak is the length of the
    longest run of consecutive ones in the [can_pay] values of the last
    90 records, the window [pct_90] is computed from; it lies between 0
    and 90, is 90 when all of these values are 1 and 0 when none is. *)
Theorem C6_streak_over_last_90 (df : DataFrame) (p : Q) :
  valid_input df ->
  exists res,
    score df p = inr res /\
    let w := last_n 90 (can_pay_series df p) in
    let m := max_consecutive_can_pay_90d res in
    length w = 90%nat /\
    pct_90 (metrics res) = round (Qsum w / 90) 4 /\
    longest_run w m /\
    (0 <= m <= 90)%nat /\
    (all_ones w -> m = 90%nat) /\
    (no_ones w -> m = O).
Proof.
  intro Hv. eexists. split; [apply (score_valid df p Hv) |].
  cbv zeta. cbn [max_consecutive_can_pay_90d metrics pct_90].
  assert (Hl : length (last_n 90 (can_pay_series df p)) = 90%nat).
  { apply last_n_length. rewrite can_pay_series_length. exact (proj2 Hv). }
  split; [exact Hl |]. split; [reflexivity |].
  split; [apply max_consecutive_ones_longest |].
  split.
  { pose proof (max_consecutive_ones_bound
                  (last_n 90 (can_pay_series df p))). lia. }
  split.
  - intro H. rewrite max_consecutive_ones_all by exact H. exact Hl.
  - apply max_consecutive_ones_none.
Qed.

(** ** Order of the input rows *)






(** ** A supplied [can_pay] column *)

(** [calculate_temporal_metrics] leaves a calculator that already has a
    [can_pay] column as it is. *)
Lemma temporal_metrics_keeps_can_pay (self : CFACalculator) :
  has_col (data self) "can_pay" = true ->
  forall m self', calculate_temporal_metrics self = inr (m, self') ->
                  self' = self.
Proof.
  intros Hc m self'. unfold calculate_temporal_metrics. rewrite Hc.
  cbn [bind ret].
  assert (Hc90 : has_col (df_tail 90 (data self)) "can_pay" = true)
    by exact Hc.
  rewrite (getcol_present _ _ _ Hc90), (getcol_present _ _ _ Hc).
  cbn [bind ret]. intro E. injection E as _ E. now symmetry.
Qed.


(** ** Rounding *)


Lemma pow10_pos_Q (n : nat) : 0 < inject_Z (Zpos (pow10 n)).
Proof. reflexivity. Qed.




(** ** Rounding a square root *)




(** ** Descriptive statistics *)

Lemma Qlen_pos {A : Type} (l : list A) : (0 < length l)%nat -> 0 < Qlen l.
Proof.
  intro H. unfold Qlen. change 0 with (inject_Z 0). rewrite <- Zlt_Qlt. lia.
Qed.

















Lemma positive_days_spec (l : list Q) (x : Q) :
  In x (filter (fun x => if Qlt_le_dec 0 x then true else false) l) <->
  In x l /\ 0 < x.
Proof.
  rewrite filter_In. destruct (Qlt_le_dec 0 x) as [H | H]; split;
    intros [H1 H2]; split; auto; try discriminate. lra.
Qed.

(** ** Schema validation *)

Lemma missing_cols_spec (df : DataFrame) (c : string) :
  In c (missing_cols df) <-> In c required_cols /\ has_col df c = false.
Proof.
  unfold missing_cols. rewrite filter_In.
  destruct (has_col df c); simpl; intuition congruence.
Qed.

(** [__init__] neither adds nor changes a [can_pay] column, and keeps
    every row. *)
Lemma init_leaves_can_pay (df : DataFrame) (p : Q) (self : CFACalculator) :
  __init__ df p = inr self ->
  has_col (data self) "can_pay" = has_col df "can_pay" /\
  map can_pay (rows (data self)) = map can_pay (sort_values (rows df)) /\
  length (rows (data self)) = length (rows df).
Proof.
  unfold __init__, getcol.
  replace (has_col (mkFrame (columns df) (sort_values (rows df))) "daily_net")
    with (has_col df "daily_net") by reflexivity.
  replace (has_col (mkFrame (columns df) (sort_values (rows df)))
             "daily_income")
    with (has_col df "daily_income") by reflexivity.
  replace (has_col (mkFrame (columns df) (sort_values (rows df)))
             "daily_expenses")
    with (has_col df "daily_expenses") by reflexivity.
  destruct (has_col df "date"); cbn [bind ret raise]; [| discriminate].
  destruct (has_col df "daily_net") eqn:En; cbn [bind ret raise].
  - destruct (_validate_data _); cbn [bind ret]; [discriminate |].
    intro E. injection E as <-. cbn [data rows].
    repeat split. apply sort_values_length.
  - destruct (has_col df "daily_income"); cbn [bind ret raise];
      [| discriminate].
    destruct (has_col df "daily_expenses"); cbn [bind ret raise];
      [| discriminate].
    destruct (_validate_data _); cbn [bind ret]; [discriminate |].
    intro E. injection E as <-. cbn [data]. split; [| split].
    + rewrite has_col_setcol. str_eval. now rewrite orb_false_r.
    + rewrite rows_setcol. cbn [rows]. rewrite map_map. reflexivity.
    + rewrite rows_setcol. cbn [rows].
      rewrite length_map. apply sort_values_length.
Qed.

(** C5, as the code has it.  For a series of at least 90 records that
    has the [date] column and either a [daily_net] column or both
    [daily_income] and [daily_expenses], an absent required field makes
    the engine fail with the missing-columns error, which names exactly
    the required fields absent from the input as given; the length that
    is checked first is that of the whole series. *)
Theorem C5_absent_required_field_is_reported (df : DataFrame) (p : Q) :
  has_col df "date" = true ->
  has_col df "daily_net" = true \/
  (has_col df "daily_income" = true /\ has_col df "daily_expenses" = true) ->
  (90 <= length (rows df))%nat ->
  missing_cols df <> [] ->
  __init__ df p = inl (ValueError_missing_cols (missing_cols df)) /\
  score df p = inl (ValueError_missing_cols (missing_cols df)) /\
  (forall c, In c (missing_cols df) <->
             In c required_cols /\ has_col df c = false).
Proof.
  intros Hd Hn Hl Hm.
  assert (E : __init__ df p = inl (ValueError_missing_cols (missing_cols df))).
  { rewrite init_reaches_validation by auto. rewrite validate_prepared.
    replace (length (rows df) <? 90)%nat with false
      by (symmetry; apply Nat.ltb_ge; exact Hl).
    destruct (missing_cols df); [congruence | reflexivity]. }
  split; [exact E |]. split; [unfold score; rewrite E; reflexivity |].
  apply missing_cols_spec.
Qed.

(** ** Ranges *)





(** ** Statistics over the whole series *)




(** ** The scenarios of the specification, evaluated *)

Example scenario_always_affordable :
  exists res, score series_90 50 = inr res /\
    pct_90 (metrics res) = 10000 # 10000 /\
    pct_6m (metrics res) = 10000 # 10000 /\
    cfa_score (metrics res) = 10000 # 10000 /\
    max_consecutive_can_pay_90d res = 90%nat /\
    risk_tier res = tier_label Tier3.
Proof. eexists. split; [vm_compute; reflexivity |]. repeat split. Qed.

Example scenario_never_affordable :
  exists res, score series_90_low 50 = inr res /\
    cfa_score (metrics res) = 0 # 10000 /\
    risk_tier res = tier_label Denied.
Proof. eexists. split; [vm_compute; reflexivity |]. repeat split. Qed.

Example scenario_recent_half :
  exists res, score series_180 50 = inr res /\
    pct_90 (metrics res) = 10000 # 10000 /\
    pct_6m (metrics res) = 5000 # 10000 /\
    cfa_score (metrics res) = 8500 # 10000 /\
    risk_tier res = tier_label Tier3.
Proof. eexists. split; [vm_compute; reflexivity |]. repeat split. Qed.

(** Without the [date] column the constructor stops at its first line,
    before [_validate_data] is reached. *)
Example init_without_date :
  __init__ series_90_no_date 50 = inl (KeyError "date").
Proof. vm_compute. reflexivity. Qed.

(** ** Instances and counterexamples *)

Ltac valid_by_computation :=
  split; [vm_compute; reflexivity | vm_compute; lia].

Lemma all_ones_by_computation (l : list Q) :
  forallb (fun v => Qeq_bool v 1) l = true -> all_ones l.
Proof.
  intro H. unfold all_ones. rewrite Forall_forall. intros v Hv.
  rewrite forallb_forall in H. apply Qeq_bool_iff. now apply H.
Qed.



Lemma C3_witness :
  missing_cols series_89 = [] /\
  score series_89 50 = inl (ValueError_min_days 89) /\
  exists res, score series_90 50 = inr res /\
              total_days (metrics res) = 90%nat.
Proof.
  assert (H89 : missing_cols series_89 = []) by (vm_compute; reflexivity).
  assert (H90 : missing_cols series_90 = []) by (vm_compute; reflexivity).
  split; [exact H89 |]. split.
  - destruct (C3_history_length_boundary series_89 50 H89) as [H _].
    assert (Hl : (length (rows series_89) < 90)%nat) by (vm_compute; lia).
    exact (proj2 (H Hl)).
  - destruct (C3_history_length_boundary series_90 50 H90) as [_ H].
    apply H. vm_compute. reflexivity.
Defined.

Lemma C4_witness :
  has_col (data (mkCalc series_90 100)) "daily_balance" = true /\
  exists s self',
    calculate_can_pay (mkCalc series_90 100) = inr (s, self') /\
    nth_error s 0 = Some 1.
Proof.
  assert (Hb : has_col (data (mkCalc series_90 100)) "daily_balance" = true)
    by (vm_compute; reflexivity).
  split; [exact Hb |].
  destruct (C4_can_pay_is_the_per_record_threshold (mkCalc series_90 100) Hb)
    as [s [self' [Hc [_ [_ [Hs _]]]]]].
  exists s, self'. split; [exact Hc |]. rewrite Hs. vm_compute. reflexivity.
Defined.

(** C5 as stated fails: a series of 89 records without [daily_balance]
    is refused for its length, not for the absent field. *)
Lemma C5_counterexample_short_series :
  In "daily_balance" required_cols /\
  has_col series_89_no_balance "daily_balance" = false /\
  __init__ series_89_no_balance 50 = inl (ValueError_min_days 89) /\
  score series_89_no_balance 50 = inl (ValueError_min_days 89) /\
  ~ (exists m, score series_89_no_balance 50
               = inl (ValueError_missing_cols m)).
Proof.
  split; [vm_compute; tauto |].
  split; [vm_compute; reflexivity |].
  split; [vm_compute; reflexivity |].
  split; [vm_compute; reflexivity |].
  intros [m H]. vm_compute in H. discriminate H.
Qed.

Lemma C5_witness :
  has_col series_90_no_balance "date" = true /\
  (90 <= length (rows series_90_no_balance))%nat /\
  missing_cols series_90_no_balance <> [] /\
  score series_90_no_balance 50
  = inl (ValueError_missing_cols ["daily_balance"]).
Proof.
  assert (Hd : has_col series_90_no_balance "date" = true)
    by (vm_compute; reflexivity).
  assert (Hn : has_col series_90_no_balance "daily_net" = true \/
               (has_col series_90_no_balance "daily_income" = true /\
                has_col series_90_no_balance "daily_expenses" = true))
    by (right; split; vm_compute; reflexivity).
  assert (Hl : (90 <= length (rows series_90_no_balance))%nat)
    by (vm_compute; lia).
  assert (Hm : missing_cols series_90_no_balance <> [])
    by (vm_compute; discriminate).
  split; [exact Hd |]. split; [exact Hl |]. split; [exact Hm |].
  exact (proj1 (proj2 (C5_absent_required_field_is_reported
                         series_90_no_balance 50 Hd Hn Hl Hm))).
Defined.

Lemma C6_witness :
  valid_input series_180 /\
  exists res, score series_180 50 = inr res /\
              max_consecutive_can_pay_90d res = 90%nat.
Proof.
  assert (Hv : valid_input series_180) by valid_by_computation.
  split; [exact Hv |].
  destruct (C6_streak_over_last_90 series_180 50 Hv)
    as [res [Hs [_ [_ [_ [_ [Hall _]]]]]]].
  exists res. split; [exact Hs |]. apply Hall.
  apply all_ones_by_computation. vm_compute. reflexivity.
Defined.






(** * Beyond the claims *)

(** ** [calculate_cfa] on any calculator *)

Lemma has_col_df_tail (n : nat) (df : DataFrame) (c : string) :
  has_col (df_tail n df) c = has_col df c.
Proof. reflexivity. Qed.

Lemma has_col_ensure (self : CFACalculator) (n : string) :
  has_col (data (ensure_can_pay self)) n
  = has_col (data self) n || String.eqb n "can_pay".
Proof.
  unfold ensure_can_pay. destruct (has_col (data self) "can_pay") eqn:E.
  - destruct (String.eqb n "can_pay") eqn:En.
    + apply String.eqb_eq in En. subst n. now rewrite E.
    + now rewrite orb_false_r.
  - cbn [data]. apply has_col_setcol.
Qed.

Lemma has_col_ensure_can_pay (self : CFACalculator) :
  has_col (data (ensure_can_pay self)) "can_pay" = true.
Proof. rewrite has_col_ensure, String.eqb_refl. apply orb_true_r. Qed.

Lemma ensure_can_pay_fixed (self : CFACalculator) :
  has_col (data self) "can_pay" = true -> ensure_can_pay self = self.
Proof. intro H. unfold ensure_can_pay. now rewrite H. Qed.

Lemma ensure_can_pay_idempotent (self : CFACalculator) :
  ensure_can_pay (ensure_can_pay self) = ensure_can_pay self.
Proof. apply ensure_can_pay_fixed, has_col_ensure_can_pay. Qed.

Lemma biweekly_parcel_ensure (self : CFACalculator) :
  biweekly_parcel (ensure_can_pay self) = biweekly_parcel self.
Proof. unfold ensure_can_pay. now destruct (has_col (data self) "can_pay"). Qed.

Lemma temporal_metrics_with_can_pay (self : CFACalculator) :
  has_col (data self) "can_pay" = true ->
  calculate_temporal_metrics self = inr (metrics_of self, self).
Proof.
  intro Hc. unfold calculate_temporal_metrics. rewrite Hc. cbn [bind ret].
  assert (Hc90 : has_col (df_tail 90 (data self)) "can_pay" = true)
    by exact Hc.
  rewrite (getcol_present _ _ _ Hc90), (getcol_present _ _ _ Hc).
  cbn [bind ret df_tail rows]. rewrite <- tail_map. reflexivity.
Qed.

Lemma temporal_metrics_outcome (self : CFACalculator) :
  calculate_temporal_metrics self =
  if has_col (data self) "can_pay" || has_col (data self) "daily_balance"
  then inr (metrics_of (ensure_can_pay self), ensure_can_pay self)
  else inl (KeyError "daily_balance").
Proof.
  destruct (has_col (data self) "can_pay") eqn:Hc.
  - cbn [orb]. rewrite (ensure_can_pay_fixed self Hc).
    now apply temporal_metrics_with_can_pay.
  - cbn [orb]. unfold calculate_temporal_metrics. rewrite Hc.
    unfold calculate_can_pay.
    destruct (has_col (data self) "daily_balance") eqn:Hb.
    + rewrite (getcol_present _ _ _ Hb). cbn [bind ret].
      assert (Hs : has_col (setcol (data self) "can_pay"
                              (set_can_pay (biweekly_parcel self)))
                     "can_pay" = true)
        by (rewrite has_col_setcol, String.eqb_refl; apply orb_true_r).
      rewrite (getcol_present _ _ _ Hs). cbn [bind ret snd data].
      assert (Hs90 : has_col (df_tail 90
                       (setcol (data self) "can_pay"
                          (set_can_pay (biweekly_parcel self))))
                       "can_pay" = true) by exact Hs.
      rewrite (getcol_present _ _ _ Hs90), (getcol_present _ _ _ Hs).
      cbn [bind ret df_tail rows]. rewrite <- tail_map.
      unfold ensure_can_pay. rewrite Hc. reflexivity.
    + rewrite (getcol_absent _ _ _ Hb). reflexivity.
Qed.

(** [calculate_cfa] needs [daily_balance] and [daily_net], and nothing
    else: the outcome on every calculator. *)
Lemma calculate_cfa_outcome (self : CFACalculator) :
  calculate_cfa self =
  if has_col (data self) "daily_balance"
  then if has_col (data self) "daily_net"
       then inr (result_of (ensure_can_pay self), ensure_can_pay self)
       else inl (KeyError "daily_net")
  else inl (KeyError "daily_balance").
Proof.
  unfold calculate_cfa. rewrite temporal_metrics_outcome.
  destruct (has_col (data self) "daily_balance") eqn:Hb.
  - rewrite orb_true_r. cbn [bind].
    rewrite (getcol_present _ _ _
               (has_col_ensure_can_pay self
                : has_col (df_tail 90 (data (ensure_can_pay self)))
                    "can_pay" = true)).
    cbn [bind ret].
    assert (Hb' : has_col (data (ensure_can_pay self)) "daily_balance" = true)
      by (rewrite has_col_ensure, Hb; reflexivity).
    rewrite (getcol_present _ _ _ Hb'). cbn [bind ret].
    assert (Hn' : has_col (data (ensure_can_pay self)) "daily_net"
                  = has_col (data self) "daily_net").
    { rewrite has_col_ensure. str_eval. apply orb_false_r. }
    unfold getcol at 1. rewrite Hn'.
    destruct (has_col (data self) "daily_net"); cbn [bind ret raise];
      [| reflexivity].
    cbn [df_tail rows]. rewrite <- tail_map. reflexivity.
  - rewrite orb_false_r.
    destruct (has_col (data self) "can_pay") eqn:Hc; [| reflexivity].
    cbn [bind]. rewrite (ensure_can_pay_fixed self Hc).
    assert (Hc90 : has_col (df_tail 90 (data self)) "can_pay" = true)
      by exact Hc.
    rewrite (getcol_present _ _ _ Hc90). cbn [bind ret].
    rewrite (getcol_absent _ _ _ Hb). reflexivity.
Qed.

Lemma calculate_cfa_success (self self' : CFACalculator) (r : CFAResult) :
  calculate_cfa self = inr (r, self') ->
  has_col (data self) "daily_balance" = true /\
  has_col (data self) "daily_net" = true /\
  r = result_of (ensure_can_pay self) /\ self' = ensure_can_pay self.
Proof.
  rewrite calculate_cfa_outcome.
  destruct (has_col (data self) "daily_balance"); [| discriminate].
  destruct (has_col (data self) "daily_net"); [| discriminate].
  intro E. injection E as <- <-. auto.
Qed.

(** A second call of [calculate_cfa] returns what the first returned
    and changes nothing more. *)
Lemma calculate_cfa_twice (self self' : CFACalculator)
    (r : CFAResult) :
  calculate_cfa self = inr (r, self') ->
  calculate_cfa self' = inr (r, self').
Proof.
  intro H. destruct (calculate_cfa_success _ _ _ H) as [Hb [Hn [-> ->]]].
  rewrite calculate_cfa_outcome.
  rewrite !has_col_ensure, Hb, Hn. cbn [orb].
  now rewrite ensure_can_pay_idempotent.
Qed.

Lemma calculate_can_pay_value (self : CFACalculator) :
  has_col (data self) "daily_balance" = true ->
  calculate_can_pay self =
  inr (map (fun x => can_pay_rule (biweekly_parcel self) (daily_balance x))
           (rows (data self)),
       mkCalc (setcol (data self) "can_pay"
                 (set_can_pay (biweekly_parcel self)))
              (biweekly_parcel self)).
Proof.
  intro Hb. unfold calculate_can_pay.
  rewrite (getcol_present _ _ _ Hb). cbn [bind ret].
  assert (Hc : has_col (setcol (data self) "can_pay"
                          (set_can_pay (biweekly_parcel self))) "can_pay"
               = true)
    by (rewrite has_col_setcol, String.eqb_refl; apply orb_true_r).
  rewrite (getcol_present _ _ _ Hc). cbn [bind ret].
  rewrite rows_setcol, map_can_pay_set_can_pay. reflexivity.
Qed.

Lemma balances_ensure (self : CFACalculator) :
  map daily_balance (rows (data (ensure_can_pay self)))
  = map daily_balance (rows (data self)).
Proof.
  unfold ensure_can_pay. destruct (has_col (data self) "can_pay");
    [reflexivity |].
  cbn [data]. rewrite rows_setcol, map_map. reflexivity.
Qed.

(** X5.  Once [can_pay] is in the frame, a changed parcel no longer
    changes the rates, the score, the streak or the tier; only the echoed
    parcel follows.  [calculate_can_pay] is what brings the column up to
    date. *)
Theorem X5_parcel_change_after_first_call (self self' : CFACalculator)
    (r : CFAResult) (p' : Q) :
  calculate_cfa self = inr (r, self') ->
  exists r',
    calculate_cfa (mkCalc (data self') p') = inr (r', mkCalc (data self') p') /\
    pct_90 (metrics r') = pct_90 (metrics r) /\
    pct_6m (metrics r') = pct_6m (metrics r) /\
    cfa_score (metrics r') = cfa_score (metrics r) /\
    max_consecutive_can_pay_90d r' = max_consecutive_can_pay_90d r /\
    risk_tier r' = risk_tier r /\
    recommendation r' = recommendation r /\
    biweekly_parcel_out (metrics r') = p' /\
    exists self'',
      calculate_can_pay (mkCalc (data self') p')
      = inr (map (fun x => can_pay_rule p' (daily_balance x))
                 (rows (data self)), self'') /\
      map can_pay (rows (data self''))
      = map (fun x => can_pay_rule p' (daily_balance x)) (rows (data self)).
Proof.
  intro H. destruct (calculate_cfa_success _ _ _ H) as [Hb [Hn [-> ->]]].
  set (e := ensure_can_pay self).
  assert (Hc : has_col (data e) "can_pay" = true)
    by apply has_col_ensure_can_pay.
  assert (Hb' : has_col (data e) "daily_balance" = true)
    by (unfold e; rewrite has_col_ensure, Hb; reflexivity).
  assert (Hn' : has_col (data e) "daily_net" = true)
    by (unfold e; rewrite has_col_ensure, Hn; reflexivity).
  exists (result_of (mkCalc (data e) p')). split.
  { rewrite calculate_cfa_outcome. cbn [data]. rewrite Hb', Hn'.
    rewrite (ensure_can_pay_fixed (mkCalc (data e) p')) by exact Hc.
    reflexivity. }
  do 7 (split; [reflexivity |]).
  eexists. rewrite (calculate_can_pay_value (mkCalc (data e) p') Hb').
  cbn [data biweekly_parcel].
  assert (Eb : forall (g : Q -> Q),
             map (fun x => g (daily_balance x)) (rows (data e))
             = map (fun x => g (daily_balance x)) (rows (data self))).
  { intro g. rewrite <- !(map_map daily_balance g). unfold e.
    now rewrite balances_ensure. }
  rewrite (Eb (can_pay_rule p')). split; [reflexivity |].
  cbn [data]. rewrite rows_setcol, map_can_pay_set_can_pay. apply Eb.
Qed.

(** X6.  [calculate_cfa] touches the [can_pay] column only. *)
Theorem X6_calculate_cfa_keeps_the_frame (self self' : CFACalculator)
    (r : CFAResult) :
  calculate_cfa self = inr (r, self') ->
  biweekly_parcel self' = biweekly_parcel self /\
  map date (rows (data self')) = map date (rows (data self)) /\
  map daily_balance (rows (data self'))
  = map daily_balance (rows (data self)) /\
  map daily_income (rows (data self')) = map daily_income (rows (data self)) /\
  map daily_expenses (rows (data self'))
  = map daily_expenses (rows (data self)) /\
  map daily_net (rows (data self')) = map daily_net (rows (data self)) /\
  (forall c, has_col (data self') c
             = has_col (data self) c || String.eqb c "can_pay") /\
  (has_col (data self) "can_pay" = true -> self' = self) /\
  (has_col (data self) "can_pay" = false ->
   columns (data self') = columns (data self) ++ ["can_pay"] /\
   map can_pay (rows (data self'))
   = map (fun x => can_pay_rule (biweekly_parcel self) (daily_balance x))
         (rows (data self))).
Proof.
  intro H. destruct (calculate_cfa_success _ _ _ H) as [_ [_ [_ ->]]].
  split; [apply biweekly_parcel_ensure |].
  assert (Hrows : forall A (f : Row -> A),
             (forall p x, f (set_can_pay p x) = f x) ->
             map f (rows (data (ensure_can_pay self)))
             = map f (rows (data self))).
  { intros A f Hf. unfold ensure_can_pay.
    destruct (has_col (data self) "can_pay"); [reflexivity |].
    cbn [data]. rewrite rows_setcol, map_map. apply map_ext. apply Hf. }
  do 5 (split; [apply Hrows; reflexivity |]).
  split; [apply has_col_ensure |].
  split; [apply ensure_can_pay_fixed |].
  intro Hc. unfold ensure_can_pay. rewrite Hc. cbn [data]. split.
  - unfold setcol. rewrite Hc. reflexivity.
  - rewrite rows_setcol. apply map_can_pay_set_can_pay.
Qed.

(** ** Construction: which error, in which order *)

(** The outcome of [__init__] on every input. *)
Lemma init_outcome_table (df : DataFrame) (p : Q) :
  __init__ df p =
  if negb (has_col df "date") then inl (KeyError "date")
  else if negb (has_col df "daily_net") && negb (has_col df "daily_income")
  then inl (KeyError "daily_income")
  else if negb (has_col df "daily_net") && negb (has_col df "daily_expenses")
  then inl (KeyError "daily_expenses")
  else if (length (rows df) <? 90)%nat
  then inl (ValueError_min_days (length (rows df)))
  else match missing_cols df with
       | [] => inr (mkCalc (prepared df) p)
       | missing => inl (ValueError_missing_cols missing)
       end.
Proof.
  destruct (has_col df "date") eqn:Hd; cbn [negb].
  2: { unfold __init__. rewrite (getcol_absent _ _ _ Hd). reflexivity. }
  destruct (has_col df "daily_net") eqn:Hn; cbn [negb andb].
  - rewrite init_reaches_validation by auto. rewrite validate_prepared.
    destruct (length (rows df) <? 90)%nat; [reflexivity |].
    destruct (missing_cols df); reflexivity.
  - destruct (has_col df "daily_income") eqn:Hi; cbn [negb].
    2: { unfold __init__. rewrite (getcol_present _ _ _ Hd). cbn [bind ret].
         replace (has_col (mkFrame (columns df) (sort_values (rows df)))
                    "daily_net") with (has_col df "daily_net") by reflexivity.
         rewrite Hn.
         assert (Hi' : has_col (mkFrame (columns df) (sort_values (rows df)))
                         "daily_income" = false) by exact Hi.
         rewrite (getcol_absent _ _ _ Hi'). reflexivity. }
    destruct (has_col df "daily_expenses") eqn:He; cbn [negb].
    2: { unfold __init__. rewrite (getcol_present _ _ _ Hd). cbn [bind ret].
         replace (has_col (mkFrame (columns df) (sort_values (rows df)))
                    "daily_net") with (has_col df "daily_net") by reflexivity.
         rewrite Hn.
         assert (Hi' : has_col (mkFrame (columns df) (sort_values (rows df)))
                         "daily_income" = true) by exact Hi.
         assert (He' : has_col (mkFrame (columns df) (sort_values (rows df)))
                         "daily_expenses" = false) by exact He.
         rewrite (getcol_present _ _ _ Hi'). cbn [bind ret].
         rewrite (getcol_absent _ _ _ He'). reflexivity. }
    rewrite init_reaches_validation by auto. rewrite validate_prepared.
    destruct (length (rows df) <? 90)%nat; [reflexivity |].
    destruct (missing_cols df); reflexivity.
Qed.

Lemma init_success (df : DataFrame) (p : Q) (self : CFACalculator) :
  __init__ df p = inr self -> valid_input df /\ self = mkCalc (prepared df) p.
Proof.
  rewrite init_outcome_table.
  destruct (negb (has_col df "date")); [discriminate |].
  destruct (negb (has_col df "daily_net") && negb (has_col df "daily_income"));
    [discriminate |].
  destruct (negb (has_col df "daily_net")
            && negb (has_col df "daily_expenses")); [discriminate |].
  destruct (length (rows df) <? 90)%nat eqn:El; [discriminate |].
  destruct (missing_cols df) eqn:Em; [| discriminate].
  intro E. injection E as <-. apply Nat.ltb_ge in El.
  split; [split; [exact Em | exact El] | reflexivity].
Qed.

(** [valid_input] is exactly what the engine accepts. *)
Lemma acceptance_is_validity (df : DataFrame) (p : Q) :
  ((exists res, score df p = inr res) <-> valid_input df) /\
  ((exists self, __init__ df p = inr self) <-> valid_input df) /\
  (forall self, __init__ df p = inr self ->
     exists res, calculate_cfa self = inr (res, ensure_can_pay self)).
Proof.
  split; [| split].
  - split.
    + intros [res H]. unfold score in H.
      destruct (__init__ df p) as [e | self] eqn:E; [discriminate H |].
      exact (proj1 (init_success _ _ _ E)).
    + intro Hv. eexists. apply (score_valid df p Hv).
  - split.
    + intros [self H]. exact (proj1 (init_success _ _ _ H)).
    + intro Hv. eexists. apply (init_valid df p Hv).
  - intros self H. destruct (init_success _ _ _ H) as [Hv ->].
    pose proof (proj1 (missing_cols_nil df) (proj1 Hv)) as [_ [Hb _]].
    rewrite calculate_cfa_outcome. cbn [data].
    rewrite !has_col_prepared, Hb, String.eqb_refl, orb_true_r. cbn [orb].
    eexists. reflexivity.
Qed.

(** ** The tier is that of the reported score *)

(** X8.  The tier and the recommendation are read off the rounded score
    that is reported, so the three always agree with one another. *)
Theorem X8_tier_of_reported_score (self self' : CFACalculator) (r : CFAResult) :
  calculate_cfa self = inr (r, self') ->
  exists b : Bucket,
    in_bucket b (cfa_score (metrics r)) /\
    risk_tier r = tier_label b /\
    recommendation r = recommendation_text b.
Proof.
  intro H. destruct (calculate_cfa_success _ _ _ H) as [_ [_ [-> _]]].
  cbn [result_of risk_tier recommendation metrics].
  apply classifier_bucket.
Qed.

(** ** Rounding is monotone; the score lies between the two rates *)




(** ** The streak counter, once more *)

Lemma runs_max_app_separator (l l' : list Q) (v : Q) : forall c,
  ~ v == 1 ->
  runs_max c (l ++ v :: l') = Nat.max (runs_max c l) (runs_max O l').
Proof.
  induction l as [| x t IH]; intros c Hv; simpl.
  - destruct (Qeq_bool v 1) eqn:E; [| reflexivity].
    apply Qeq_bool_iff in E. contradiction.
  - destruct (Qeq_bool x 1).
    + now apply IH.
    + rewrite (IH O Hv). lia.
Qed.

(** X10.  A value other than 1 separates the runs: the streak of the whole
    is the larger of the streaks on either side. *)
Theorem X10_max_consecutive_ones_separator (l l' : list Q) (v : Q) :
  ~ v == 1 ->
  _max_consecutive_ones (l ++ v :: l')
  = Nat.max (_max_consecutive_ones l) (_max_consecutive_ones l').
Proof.
  intro Hv. rewrite !max_consecutive_ones_runs_max.
  now apply runs_max_app_separator.
Qed.

Lemma Qsum_app (l l' : list Q) : Qsum (l ++ l') == Qsum l + Qsum l'.
Proof.
  induction l as [| x t IH]; simpl.
  - unfold Qsum at 2. simpl. ring.
  - rewrite !Qsum_cons, IH. ring.
Qed.

Lemma Qsum_nonneg (l : list Q) : Forall (fun v => 0 <= v) l -> 0 <= Qsum l.
Proof.
  induction 1 as [| x t Hx _ IH].
  - apply Qle_refl.
  - rewrite Qsum_cons. lra.
Qed.

Lemma Qsum_all_ones (l : list Q) :
  all_ones l -> Qsum l == inject_Z (Z.of_nat (length l)).
Proof.
  induction 1 as [| x t Hx _ IH].
  - reflexivity.
  - assert (Hx' : x == 1) by exact Hx.
    cbn [length]. rewrite Qsum_cons, Hx', IH.
    rewrite Nat2Z.inj_succ, <- Z.add_1_r, inject_Z_plus.
    change (inject_Z 1) with 1. ring.
Qed.

(** X11.  Over values that are never negative, the streak is at most the
    sum: there are at least as many paying days as the longest run is
    long. *)
Theorem X11_max_consecutive_ones_le_sum (arr : list Q) :
  Forall (fun v => 0 <= v) arr ->
  inject_Z (Z.of_nat (_max_consecutive_ones arr)) <= Qsum arr.
Proof.
  intro Hpos.
  destruct (max_consecutive_ones_longest arr) as [Hrun _].
  destruct Hrun as [pre [ones [post [E [Hl Ho]]]]].
  rewrite <- Hl, <- (Qsum_all_ones ones Ho).
  rewrite E in Hpos |- *. rewrite !Qsum_app.
  apply Forall_app in Hpos. destruct Hpos as [Hpre Hrest].
  apply Forall_app in Hrest. destruct Hrest as [_ Hpost].
  apply Qsum_nonneg in Hpre. apply Qsum_nonneg in Hpost. lra.
Qed.

(** ** What the constructor keeps *)

Lemma sort_values_ascending_id (l : list Row) :
  date_ascending l -> sort_values l = l.
Proof.
  unfold date_ascending. induction 1 as [| r t Hs IH Hall]; simpl.
  - reflexivity.
  - rewrite IH. destruct t as [| h t']; [reflexivity |].
    simpl. inversion Hall as [| ? ? Hrh _]. subst.
    unfold date_le in Hrh. apply Z.leb_le in Hrh. now rewrite Hrh.
Qed.

Lemma strictly_ascending_ascending (l : list Row) :
  date_strictly_ascending l -> date_ascending l.
Proof.
  unfold date_strictly_ascending, date_ascending.
  induction 1 as [| r t Hs IH Hall]; constructor; [exact IH |].
  rewrite Forall_forall in Hall |- *. intros x Hx.
  specialize (Hall x Hx). unfold date_le. lia.
Qed.

(** X7.  A calculator that could be built holds the records of the input,
    all of them, in date order; nothing but [daily_net] is ever written,
    and a supplied [daily_net] is kept as it is.  A series that comes in
    strict date order keeps its order. *)
Theorem X7_init_keeps_the_records (df : DataFrame) (p : Q)
    (self : CFACalculator) :
  __init__ df p = inr self ->
  biweekly_parcel self = p /\
  date_ascending (rows (data self)) /\
  (has_col df "daily_net" = true ->
   columns (data self) = columns df /\
   Permutation (rows df) (rows (data self))) /\
  (has_col df "daily_net" = false ->
   columns (data self) = columns df ++ ["daily_net"] /\
   Permutation (map set_daily_net (rows df)) (rows (data self))) /\
  (date_strictly_ascending (rows df) ->
   map date (rows (data self)) = map date (rows df) /\
   map daily_balance (rows (data self)) = map daily_balance (rows df)).
Proof.
  intro H. destruct (init_success _ _ _ H) as [_ ->].
  cbn [biweekly_parcel data prepared rows columns].
  unfold prepared_cols, prepared_rows.
  split; [reflexivity |]. split; [| split; [| split]].
  - destruct (has_col df "daily_net").
    + apply sort_values_sorted.
    + pose proof (sort_values_sorted (rows df)) as Hs.
      unfold date_ascending in *.
      induction Hs as [| r t _ IH Hall]; simpl; constructor; [exact IH |].
      rewrite Forall_forall in Hall |- *. intros x Hx.
      apply in_map_iff in Hx. destruct Hx as [y [<- Hy]].
      exact (Hall y Hy).
  - intro E. rewrite E. split; [reflexivity | apply sort_values_perm].
  - intro E. rewrite E. split; [reflexivity |].
    apply Permutation_map, sort_values_perm.
  - intro Hs.
    rewrite (sort_values_ascending_id (rows df))
      by now apply strictly_ascending_ascending.
    destruct (has_col df "daily_net"); rewrite ?map_map; split; reflexivity.
Qed.

(** ** Sample data *)

Lemma sample_rows_length (P : TierParams) (start : Z) (draw : nat -> Z)
    (n : nat) : forall i cur,
  length (sample_rows P start draw i n cur) = n.
Proof.
  induction n as [| n IH]; intros i cur; simpl; [reflexivity |].
  now rewrite IH.
Qed.

Lemma sample_rows_dates (P : TierParams) (start : Z) (draw : nat -> Z)
    (n : nat) : forall i cur,
  map date (sample_rows P start draw i n cur)
  = map (fun k => (start + Z.of_nat k)%Z) (seq i n).
Proof.
  induction n as [| n IH]; intros i cur; simpl; [reflexivity |].
  now rewrite IH.
Qed.

Lemma sample_rows_strictly_ascending (P : TierParams) (start : Z)
    (draw : nat -> Z) (n : nat) : forall i cur,
  date_strictly_ascending (sample_rows P start draw i n cur).
Proof.
  unfold date_strictly_ascending.
  induction n as [| n IH]; intros i cur; simpl; constructor; [apply IH |].
  rewrite Forall_forall. intros r Hr. cbn [date].
  apply (in_map date) in Hr. rewrite sample_rows_dates in Hr.
  apply in_map_iff in Hr. destruct Hr as [k [<- Hk]].
  apply in_seq in Hk. lia.
Qed.

Lemma sample_rows_balance_floor (P : TierParams) (start : Z)
    (draw : nat -> Z) (n : nat) : forall i cur,
  Forall (fun r => inject_Z (-100) <= daily_balance r)
         (sample_rows P start draw i n cur).
Proof.
  induction n as [| n IH]; intros i cur; simpl; constructor; [| apply IH].
  cbn [daily_balance].
  rewrite <- Zle_Qle.
  match goal with
  | |- context [(?c <? -100)%Z] => destruct (Z.ltb_spec c (-100)); lia
  end.
Qed.

Lemma sample_rows_nth (P : TierParams) (start : Z) (draw : nat -> Z)
    (n : nat) : forall i cur k r,
  nth_error (sample_rows P start draw i n cur) k = Some r ->
  date r = (start + Z.of_nat (i + k))%Z /\
  daily_income r
  = inject_Z (if (Z.of_nat (i + k) mod income_freq P =? 0)%Z
              then income_amt P else 0%Z) /\
  daily_expenses r = inject_Z (daily_expense P + draw (i + k)%nat).
Proof.
  induction n as [| n IH]; intros i cur k r H; simpl in H.
  - destruct k; discriminate H.
  - destruct k as [| k]; simpl in H.
    + injection H as <-. rewrite Nat.add_0_r. cbn [date daily_income
        daily_expenses]. auto.
    + apply IH in H. replace (i + S k)%nat with (S i + k)%nat by lia.
      exact H.
Qed.

Lemma params_for_cases (tier : Z) :
  params_for tier = mkParams 300 14 600 25 \/
  params_for tier = mkParams 500 14 800 30 \/
  params_for tier = mkParams 800 14 1000 35.
Proof.
  unfold params_for, tier_params.
  destruct (tier =? 1)%Z; [auto |].
  destruct (tier =? 2)%Z; [auto |].
  destruct (tier =? 3)%Z; auto.
Qed.

Lemma generate_rows (days : nat) (tier start : Z) (draw : nat -> Z) :
  rows (generate_sample_data days tier start draw)
  = sample_rows (params_for tier) start draw 0 days
                (base_balance (params_for tier)).
Proof. reflexivity. Qed.

Lemma generate_columns (days : nat) (tier start : Z) (draw : nat -> Z) :
  columns (generate_sample_data days tier start draw)
  = match days with O => [] | S _ => required_cols end.
Proof.
  unfold generate_sample_data, frame_of_records. cbn [columns].
  destruct days; reflexivity.
Qed.

(** The sample has one record per requested day, on consecutive
    dates from the start, hence in strict date order; it has the four
    required columns, unless no day was asked for, in which case it has
    no column at all. *)
Lemma sample_shape (days : nat) (tier start : Z)
    (draw : nat -> Z) :
  let df := generate_sample_data days tier start draw in
  length (rows df) = days /\
  map date (rows df) = map (fun k => (start + Z.of_nat k)%Z) (seq 0 days) /\
  date_strictly_ascending (rows df) /\
  NoDup (map date (rows df)) /\
  columns df = match days with O => [] | S _ => required_cols end /\
  sort_values (rows df) = rows df.
Proof.
  cbv zeta. rewrite generate_rows, generate_columns.
  split; [apply sample_rows_length |].
  split; [apply sample_rows_dates |].
  split; [apply sample_rows_strictly_ascending |].
  split.
  { rewrite sample_rows_dates.
    apply Injective_map_NoDup; [| apply seq_NoDup].
    intros x y H. lia. }
  split; [reflexivity |].
  apply sort_values_ascending_id, strictly_ascending_ascending,
    sample_rows_strictly_ascending.
Qed.

(** X13.  Whatever the draws, no recorded balance is below -100: a balance
    that would be is replaced by 50. *)
Theorem X13_generate_sample_data_balance_floor (days : nat) (tier start : Z)
    (draw : nat -> Z) :
  Forall (fun r => inject_Z (-100) <= daily_balance r)
         (rows (generate_sample_data days tier start draw)).
Proof. rewrite generate_rows. apply sample_rows_balance_floor. Qed.

(** X14.  A tier other than 1, 2 and 3 gives the sample of tier 1. *)
Theorem X14_generate_sample_data_unknown_tier (days : nat) (tier start : Z)
    (draw : nat -> Z) :
  tier <> 1%Z -> tier <> 2%Z -> tier <> 3%Z ->
  tier_params tier = None /\
  generate_sample_data days tier start draw
  = generate_sample_data days 1 start draw.
Proof.
  intros H1 H2 H3.
  assert (E : tier_params tier = None).
  { unfold tier_params.
    destruct (Z.eqb_spec tier 1); [contradiction |].
    destruct (Z.eqb_spec tier 2); [contradiction |].
    destruct (Z.eqb_spec tier 3); [contradiction | reflexivity]. }
  split; [exact E |].
  unfold generate_sample_data, params_for. rewrite E. reflexivity.
Qed.

(** X15.  Income arrives on every 14th day, the first included, and on no
    other; with draws in range the expenses of a day are within 10 below
    and 14 above the tier's daily expense, hence positive. *)
Theorem X15_generate_sample_data_income_and_expenses (days : nat)
    (tier start : Z) (draw : nat -> Z) (k : nat) (r : Row) :
  nth_error (rows (generate_sample_data days tier start draw)) k = Some r ->
  let P := params_for tier in
  (daily_income r = inject_Z (income_amt P) <-> (Z.of_nat k mod 14 = 0)%Z) /\
  (daily_income r = 0 <-> (Z.of_nat k mod 14 <> 0)%Z) /\
  (draws_in_range draw ->
   inject_Z (daily_expense P - 10) <= daily_expenses r /\
   daily_expenses r <= inject_Z (daily_expense P + 14) /\
   0 < daily_expenses r).
Proof.
  intro H. rewrite generate_rows in H. apply sample_rows_nth in H.
  destruct H as [_ [Hi He]]. cbn [Nat.add] in Hi, He. cbv zeta.
  assert (Hf : income_freq (params_for tier) = 14%Z)
    by (destruct (params_for_cases tier) as [-> | [-> | ->]]; reflexivity).
  assert (Ha : (0 < income_amt (params_for tier))%Z)
    by (destruct (params_for_cases tier) as [-> | [-> | ->]]; reflexivity).
  assert (Hd : (25 <= daily_expense (params_for tier))%Z)
    by (destruct (params_for_cases tier) as [-> | [-> | ->]];
        cbn [daily_expense]; lia).
  rewrite Hf in Hi. rewrite Hi, He.
  destruct (Z.eqb_spec (Z.of_nat k mod 14) 0) as [E | E].
  - split; [tauto |]. split.
    + split; [| tauto]. intro H0. exfalso.
      apply (f_equal Qnum) in H0. cbn [Qnum inject_Z] in H0. lia.
    + intro Hr. specialize (Hr k).
      rewrite <- !Zle_Qle. change 0 with (inject_Z 0). rewrite <- Zlt_Qlt. lia.
  - split.
    + split; [| tauto]. intro H0. exfalso.
      apply (f_equal Qnum) in H0. cbn [Qnum inject_Z] in H0. lia.
    + split; [tauto |]. intro Hr. specialize (Hr k).
      rewrite <- !Zle_Qle. change 0 with (inject_Z 0). rewrite <- Zlt_Qlt. lia.
Qed.

Lemma generate_valid (days : nat) (tier start : Z) (draw : nat -> Z) :
  (90 <= days)%nat ->
  valid_input (generate_sample_data days tier start draw).
Proof.
  intro H. split.
  - apply missing_cols_nil. unfold has_col. rewrite generate_columns.
    destruct days; [lia |]. repeat split; reflexivity.
  - rewrite generate_rows, sample_rows_length. exact H.
Qed.

(** X16.  The sample feeds the engine: with 90 days or more the calculator
    is built, holds the records in the order generated with [daily_net]
    derived, and scores them; with fewer days the length error is raised;
    with no day at all the frame has no [date] column and the constructor
    stops on that. *)
Theorem X16_generate_sample_data_into_engine (days : nat) (tier start : Z)
    (draw : nat -> Z) (p : Q) :
  let df := generate_sample_data days tier start draw in
  ((90 <= days)%nat ->
   __init__ df p
   = inr (mkCalc (mkFrame (required_cols ++ ["daily_net"])
                          (map set_daily_net (rows df))) p) /\
   exists res, score df p = inr res /\ total_days (metrics res) = days) /\
  ((0 < days < 90)%nat -> score df p = inl (ValueError_min_days days)) /\
  (days = O -> score df p = inl (KeyError "date")).
Proof.
  cbv zeta. split; [| split].
  - intro H. pose proof (generate_valid days tier start draw H) as Hv.
    split.
    + rewrite (init_valid _ p Hv). unfold prepared, prepared_cols,
        prepared_rows.
      destruct (sample_shape days tier start draw)
        as [_ [_ [_ [_ [Hc Hs]]]]].
      rewrite Hs. unfold has_col. rewrite Hc.
      destruct days; [lia |]. reflexivity.
    + eexists. split; [apply (score_valid _ p Hv) |].
      cbn [metrics total_days]. rewrite generate_rows.
      apply sample_rows_length.
  - intro H. unfold score. rewrite init_outcome_table.
    unfold has_col. rewrite generate_columns.
    destruct days as [| d]; [lia |].
    change (existsb (String.eqb "date") required_cols) with true.
    change (existsb (String.eqb "daily_income") required_cols) with true.
    change (existsb (String.eqb "daily_expenses") required_cols) with true.
    cbn [negb andb]. rewrite !andb_false_r.
    rewrite generate_rows, sample_rows_length.
    replace (S d <? 90)%nat with true by (symmetry; apply Nat.ltb_lt; lia).
    reflexivity.
  - intros ->. reflexivity.
Qed.

(** ** Export *)

Lemma tolist_numpy_free (a : list NpScalar) :
  forallb numpy_free (map item a) = true.
Proof.
  induction a as [| s t IH]; simpl; [reflexivity |].
  rewrite IH. now destruct s.
Qed.

(** [convert_to_native] leaves no numpy value behind exactly on the
    trees in which, below dictionaries, lists hold none and no numpy
    boolean occurs: it does not look into lists and does not convert
    numpy booleans. *)
Lemma convert_numpy_free : forall v : PyVal,
  numpy_free (convert_to_native v) = convertible v.
Proof.
  fix IH 1. intros [items | elems | z | q | s | b | | s | a]; simpl;
    try reflexivity.
  - induction items as [| [k x] t IHt]; simpl; [reflexivity |].
    now rewrite IH, IHt.
  - destruct s; reflexivity.
  - apply tolist_numpy_free.
Qed.

(** Converting twice is converting once, and the keys stay as they
    are, dictionary by dictionary and in order. *)
Lemma convert_twice_and_keys : forall v : PyVal,
  convert_to_native (convert_to_native v) = convert_to_native v /\
  key_shape (convert_to_native v) = key_shape v.
Proof.
  fix IH 1. intros [items | elems | z | q | s | b | | s | a]; simpl;
    try (split; reflexivity).
  - split.
    + f_equal. induction items as [| [k x] t IHt]; simpl; [reflexivity |].
      now rewrite (proj1 (IH x)), IHt.
    + induction items as [| [k x] t IHt]; simpl; [reflexivity |].
      now rewrite (proj2 (IH x)), IHt.
  - destruct s; split; reflexivity.
Qed.

Lemma results_dict_convertible (r : CFAResult) :
  convertible (results_dict r) = true.
Proof. reflexivity. Qed.

(** [export_results] fails exactly as [calculate_cfa] does; when it
    succeeds it hands back the result [calculate_cfa] gives, leaves the
    calculator as [calculate_cfa] leaves it, and writes a tree without any
    numpy value that has the keys of the result. *)
Lemma export_results_cases (self : CFACalculator) :
  (forall e, calculate_cfa self = inl e -> export_results self = inl e) /\
  (forall r self', calculate_cfa self = inr (r, self') ->
     exists written,
       export_results self = inr (r, written, self') /\
       numpy_free written = true /\
       map fst (key_shape written)
       = ["pct_90"; "pct_6m"; "cfa_score"; "total_days"; "biweekly_parcel";
          "max_consecutive_can_pay_90d"; "balance_stats"; "net_stats";
          "risk_tier"; "recommendation"] /\
       key_shape written = key_shape (results_dict r)).
Proof.
  unfold export_results. split.
  - intros e ->. reflexivity.
  - intros r self' ->. cbn [bind ret fst snd].
    eexists. split; [reflexivity |].
    rewrite convert_numpy_free.
    rewrite (proj2 (convert_twice_and_keys _)).
    repeat split.
Qed.

(** ** Underwriting rules *)

Lemma risk_tier_iff_bucket (s : Q) (b : Bucket) :
  _determine_risk_tier s = tier_label b <-> in_bucket b s.
Proof.
  destruct (classifier_bucket s) as [b0 [Hb0 [Ht _]]]. split.
  - intro E. rewrite Ht in E. apply tier_label_injective in E. now subst.
  - intro Hb. rewrite Ht. f_equal. symmetry.
    exact (in_bucket_unique s b0 b Hb0 Hb).
Qed.

(** X20.  The thresholds listed by [get_underwriting_rules] are the ones
    the classifier applies: a tier is assigned exactly from its [cfa_min]
    up to the [cfa_min] of the tier above, and the denial exactly below
    the [cfa_max] of the [deny] rule. *)
Theorem X20_underwriting_rules_match_classifier :
  exists m3 m2 m1 mx : Q,
    rule_threshold "tier_3" "cfa_min" = Some m3 /\
    rule_threshold "tier_2" "cfa_min" = Some m2 /\
    rule_threshold "tier_1" "cfa_min" = Some m1 /\
    rule_threshold "deny" "cfa_max" = Some mx /\
    forall s : Q,
      (_determine_risk_tier s = tier_label Tier3 <-> m3 <= s) /\
      (_determine_risk_tier s = tier_label Tier2 <-> m2 <= s /\ s < m3) /\
      (_determine_risk_tier s = tier_label Tier1 <-> m1 <= s /\ s < m2) /\
      (_determine_risk_tier s = tier_label Denied <-> s < mx).
Proof.
  exists (70 # 100), (60 # 100), (50 # 100), (50 # 100).
  do 4 (split; [vm_compute; reflexivity |]).
  intro s.
  split; [exact (risk_tier_iff_bucket s Tier3) |].
  split; [exact (risk_tier_iff_bucket s Tier2) |].
  split; [exact (risk_tier_iff_bucket s Tier1) |].
  exact (risk_tier_iff_bucket s Denied).
Qed.

(** ** Plotting *)

Lemma plot_outcome (self : CFACalculator) :
  plot_temporal_analysis self =
  if has_col (data self) "date"
  then if has_col (data self) "daily_balance"
       then if has_col (data self) "can_pay"
            then
              let d := map date (rows (data self)) in
              let cp := map can_pay (rows (data self)) in
              inr (mkPlot (combine d (map daily_balance (rows (data self))))
                          (biweekly_parcel self)
                          (combine (combine d cp) (map bar_colour cp))
                          (combine d (rolling_mean 30 cp)))
            else inl (KeyError "can_pay")
       else inl (KeyError "daily_balance")
  else inl (KeyError "date").
Proof.
  unfold plot_temporal_analysis, getcol.
  destruct (has_col (data self) "date"); [| reflexivity].
  destruct (has_col (data self) "daily_balance"); [| reflexivity].
  destruct (has_col (data self) "can_pay"); reflexivity.
Qed.

Lemma rolling_mean_length (w : nat) (s : list Q) :
  length (rolling_mean w s) = length s.
Proof. unfold rolling_mean. now rewrite length_map, length_seq. Qed.

(** The charts need the [can_pay] column, which the constructor does
    not make: on a calculator just built from a series without that
    column plotting raises [KeyError], and after [calculate_cfa] it draws
    one point, one bar and one rolling value per record. *)
Lemma plot_before_and_after (df : DataFrame) (p : Q) (self : CFACalculator) :
  __init__ df p = inr self ->
  has_col df "can_pay" = false ->
  plot_temporal_analysis self = inl (KeyError "can_pay") /\
  forall r self', calculate_cfa self = inr (r, self') ->
    exists pd,
      plot_temporal_analysis self' = inr pd /\
      parcel_level pd = p /\
      length (balance_line pd) = length (rows df) /\
      length (bars pd) = length (rows df) /\
      length (rolling_cfa pd) = length (rows df).
Proof.
  intros Hi Hc. destruct (init_success _ _ _ Hi) as [Hv ->].
  pose proof (proj1 (missing_cols_nil df) (proj1 Hv)) as [Hd [Hb _]].
  split.
  - rewrite plot_outcome. cbn [data].
    rewrite !has_col_prepared, Hd, Hb, Hc. reflexivity.
  - intros r self' H. destruct (calculate_cfa_success _ _ _ H)
      as [_ [_ [_ ->]]].
    rewrite plot_outcome. rewrite !has_col_ensure. cbn [data].
    rewrite !has_col_prepared, Hd, Hb, String.eqb_refl.
    cbn [orb]. rewrite !orb_true_r. cbv zeta.
    eexists. split; [reflexivity |].
    cbn [parcel_level balance_line bars rolling_cfa].
    split; [apply biweekly_parcel_ensure |].
    assert (Hl : length (rows (data (ensure_can_pay
                                       (mkCalc (prepared df) p))))
                 = length (rows df)).
    { unfold ensure_can_pay. cbn [data biweekly_parcel].
      destruct (has_col (prepared df) "can_pay"); cbn [data];
        rewrite ?rows_setcol, ?length_map; apply prepared_rows_length. }
    rewrite !length_combine, rolling_mean_length, !length_map, Hl.
    repeat split; lia.
Qed.

Lemma mean_unit (l : list Q) :
  (0 < length l)%nat -> Forall (fun v => 0 <= v /\ v <= 1) l ->
  0 <= mean l /\ mean l <= 1.
Proof.
  intros Hl H. apply Qsum_bounds in H. destruct H as [H0 H1].
  pose proof (Qlen_pos l Hl) as Hn. unfold mean. split.
  - apply Qle_shift_div_l; [exact Hn | lra].
  - apply Qle_shift_div_r; [exact Hn | lra].
Qed.

Lemma firstn_incl {A : Type} (n : nat) (l : list A) (x : A) :
  In x (firstn n l) -> In x l.
Proof.
  intro H. rewrite <- (firstn_skipn n l). apply in_or_app. now left.
Qed.

Lemma rolling_mean_unit (w : nat) (s : list Q) :
  (0 < w)%nat -> Forall (fun v => 0 <= v /\ v <= 1) s ->
  Forall (fun v => 0 <= v /\ v <= 1) (rolling_mean w s).
Proof.
  intros Hw Hs. unfold rolling_mean. rewrite Forall_forall. intros v Hv.
  apply in_map_iff in Hv. destruct Hv as [i [<- Hi]].
  apply in_seq in Hi. apply mean_unit.
  - unfold tail. rewrite length_skipn, length_firstn. lia.
  - rewrite Forall_forall in Hs |- *. intros x Hx.
    apply Hs. apply tail_incl in Hx. now apply firstn_incl in Hx.
Qed.

(** X22.  What is drawn: the bars are the [can_pay] values, red exactly
    where the value is 0; the rolling curve starts at the first value and,
    for values between 0 and 1, stays between 0 and 1. *)
Theorem X22_plot_bars_and_rolling_curve (self : CFACalculator) (pd : PlotData) :
  plot_temporal_analysis self = inr pd ->
  let cp := map can_pay (rows (data self)) in
  map (fun b => snd (fst b)) (bars pd) = cp /\
  (forall d h c, In (d, h, c) (bars pd) -> (c = "#dc3545" <-> h == 0)) /\
  map snd (rolling_cfa pd) = rolling_mean 30 cp /\
  (forall x, hd_error cp = Some x ->
             exists y, hd_error (map snd (rolling_cfa pd)) = Some y /\
                       y == x) /\
  (Forall (fun v => 0 <= v /\ v <= 1) cp ->
   Forall (fun dv => 0 <= snd dv /\ snd dv <= 1) (rolling_cfa pd)).
Proof.
  rewrite plot_outcome.
  destruct (has_col (data self) "date"); [| discriminate].
  destruct (has_col (data self) "daily_balance"); [| discriminate].
  destruct (has_col (data self) "can_pay"); [| discriminate].
  cbv zeta. intro E. injection E as <-.
  cbn [bars rolling_cfa].
  generalize (rows (data self)). intro rs.
  assert (Hsnd : forall (A B : Type) (l : list A) (l' : list B),
             length l = length l' -> map snd (combine l l') = l').
  { intros A B l. induction l as [| a t IH]; intros [| b t'] Hl;
      simpl in *; try discriminate; [reflexivity |].
    f_equal. apply IH. lia. }
  assert (Hin : forall d h c,
             In (d, h, c)
                (combine (combine (map date rs) (map can_pay rs))
                         (map bar_colour (map can_pay rs))) ->
             c = bar_colour h).
  { induction rs as [| r t IH]; simpl; intros d h c H; [contradiction |].
    destruct H as [H | H]; [injection H as _ <- <-; reflexivity |].
    now apply (IH d). }
  split; [| split; [| split; [| split]]].
  - clear Hin. induction rs as [| r t IH]; simpl; [reflexivity |].
    f_equal. exact IH.
  - intros d h c H. apply Hin in H. subst c. unfold bar_colour.
    destruct (Qeq_bool h 0) eqn:E.
    + apply Qeq_bool_iff in E. tauto.
    + split; [discriminate |]. intro H0. apply Qeq_bool_iff in H0.
      congruence.
  - apply Hsnd. now rewrite rolling_mean_length, !length_map.
  - intros x Hx.
    rewrite Hsnd by now rewrite rolling_mean_length, !length_map.
    destruct (map can_pay rs) as [| y t] eqn:Ecp; [discriminate |].
    injection Hx as ->. exists (mean [x]). split; [reflexivity |].
    unfold mean, Qsum, Qlen. simpl. field.
  - intro H. apply (rolling_mean_unit 30) in H; [| lia].
    rewrite Forall_forall in H |- *. intros dv Hdv. apply H.
    rewrite <- (Hsnd _ _ (map date rs) (rolling_mean 30 (map can_pay rs)))
      by now rewrite rolling_mean_length, !length_map.
    now apply in_map.
Qed.

(** ** The script *)

(** X23.  For any start date and any random draws, the script block runs
    through: the calculator is built on the 180 generated days, the three
    calls of [calculate_cfa] return one and the same result, the exported
    tree holds no numpy value and the charts get 180 bars. *)
Theorem X23_main_block_runs (start : Z) (draw : nat -> Z) :
  exists r written pd,
    main_block start draw = inr (r, r, r, written, pd) /\
    total_days (metrics r) = 180%nat /\
    biweekly_parcel_out (metrics r) = 3972 # 100 /\
    numpy_free written = true /\
    length (bars pd) = 180%nat.
Proof.
  set (df := generate_sample_data 180 2 start draw).
  assert (Hv : valid_input df) by (apply generate_valid; lia).
  pose proof (init_valid df (3972 # 100) Hv) as Hi.
  destruct (proj2 (proj2 (acceptance_is_validity df (3972 # 100)))
              _ Hi) as [r Hr].
  set (self := mkCalc (prepared df) (3972 # 100)) in *.
  pose proof (calculate_cfa_twice _ _ _ Hr) as Hr2.
  destruct (proj2 (export_results_cases (ensure_can_pay self))
              _ _ Hr2) as [w [Hw [Hfree _]]].
  assert (Hnc : has_col df "can_pay" = false).
  { unfold has_col, df. rewrite generate_columns. reflexivity. }
  destruct (proj2 (plot_before_and_after df _ self Hi Hnc) _ _ Hr)
    as [pd [Hp [_ [_ [Hbars _]]]]].
  exists r, w, pd. split.
  - unfold main_block. fold df. rewrite Hi. cbn [bind].
    rewrite Hr. cbn [bind snd fst]. rewrite Hr2. cbn [bind snd fst].
    rewrite Hw. cbn [bind snd fst]. rewrite Hp. reflexivity.
  - destruct (calculate_cfa_success _ _ _ Hr) as [_ [_ [-> _]]].
    split.
    { cbn [result_of metrics metrics_of total_days].
      unfold ensure_can_pay, self. cbn [data biweekly_parcel].
      destruct (has_col (prepared df) "can_pay"); cbn [data];
        rewrite ?rows_setcol, ?length_map; unfold prepared; cbn [rows];
        rewrite prepared_rows_length;
        unfold df; rewrite generate_rows; apply sample_rows_length. }
    split.
    { cbn [result_of metrics metrics_of biweekly_parcel_out].
      apply biweekly_parcel_ensure. }
    split; [exact Hfree |].
    rewrite Hbars. unfold df. rewrite generate_rows.
    apply sample_rows_length.
Qed.

(** ** Properties beyond the claims, collected *)

(** X1.  The outcome of [__init__] on every input, in the order the
    constructor runs into it: no [date] column, [KeyError]; [daily_net]
    to derive and no [daily_income], or no [daily_expenses], [KeyError];
    fewer than 90 records, the length error; a required column absent,
    the missing-columns error; otherwise the calculator on the prepared
    frame. *)
Theorem X1_init_outcome (df : DataFrame) (p : Q) :
  __init__ df p =
  if negb (has_col df "date") then inl (KeyError "date")
  else if negb (has_col df "daily_net") && negb (has_col df "daily_income")
  then inl (KeyError "daily_income")
  else if negb (has_col df "daily_net") && negb (has_col df "daily_expenses")
  then inl (KeyError "daily_expenses")
  else if (length (rows df) <? 90)%nat
  then inl (ValueError_min_days (length (rows df)))
  else match missing_cols df with
       | [] => inr (mkCalc (prepared df) p)
       | missing => inl (ValueError_missing_cols missing)
       end.
Proof. apply init_outcome_table. Qed.

(** X2.  The engine produces a result exactly for the series that have
    the four required columns and at least 90 records; the constructor
    succeeds for exactly the same series, and on a calculator that was
    built [calculate_cfa] never fails. *)
Theorem X2_score_succeeds_iff_valid (df : DataFrame) (p : Q) :
  ((exists res, score df p = inr res) <-> valid_input df) /\
  ((exists self, __init__ df p = inr self) <-> valid_input df) /\
  (forall self, __init__ df p = inr self ->
     exists res, calculate_cfa self = inr (res, ensure_can_pay self)).
Proof. apply acceptance_is_validity. Qed.

(** X3.  On any calculator, built by the constructor or not,
    [calculate_cfa] needs the [daily_balance] and [daily_net] columns and
    no other: without the first it raises [KeyError] on it, with the first
    and without the second [KeyError] on the second, and with both it
    returns a result and leaves a calculator that has a [can_pay]
    column. *)
Theorem X3_calculate_cfa_needs_balance_and_net (self : CFACalculator) :
  (has_col (data self) "daily_balance" = false ->
   calculate_cfa self = inl (KeyError "daily_balance")) /\
  (has_col (data self) "daily_balance" = true ->
   has_col (data self) "daily_net" = false ->
   calculate_cfa self = inl (KeyError "daily_net")) /\
  (has_col (data self) "daily_balance" = true ->
   has_col (data self) "daily_net" = true ->
   exists r self',
     calculate_cfa self = inr (r, self') /\
     has_col (data self') "can_pay" = true /\
     total_days (metrics r) = length (rows (data self))).
Proof.
  rewrite calculate_cfa_outcome. split; [| split].
  - intros ->. reflexivity.
  - intros -> ->. reflexivity.
  - intros -> ->. eexists. eexists. split; [reflexivity |].
    split; [apply has_col_ensure_can_pay |].
    cbn [result_of metrics metrics_of total_days].
    unfold ensure_can_pay. destruct (has_col (data self) "can_pay");
      cbn [data]; rewrite ?rows_setcol, ?length_map; reflexivity.
Qed.

(** X4.  A second call of [calculate_cfa] returns what the first
    returned and changes the calculator no further. *)
Theorem X4_calculate_cfa_idempotent (self self' : CFACalculator)
    (r : CFAResult) :
  calculate_cfa self = inr (r, self') ->
  calculate_cfa self' = inr (r, self').
Proof. apply calculate_cfa_twice. Qed.

(** X12.  The sample has one record per requested day, on consecutive
    dates from the start, hence in strict date order and without a date
    twice; it has the four required columns, unless no day was asked for,
    in which case it has no column at all; sorting it by date changes
    nothing. *)
Theorem X12_generate_sample_data_shape (days : nat) (tier start : Z)
    (draw : nat -> Z) :
  let df := generate_sample_data days tier start draw in
  length (rows df) = days /\
  map date (rows df) = map (fun k => (start + Z.of_nat k)%Z) (seq 0 days) /\
  date_strictly_ascending (rows df) /\
  NoDup (map date (rows df)) /\
  columns df = match days with O => [] | S _ => required_cols end /\
  sort_values (rows df) = rows df.
Proof. apply sample_shape. Qed.

(** X17.  [convert_to_native] leaves no numpy value behind exactly on
    the trees in which, below dictionaries, lists hold none and no numpy
    boolean occurs: it does not look into lists and does not convert
    numpy booleans. *)
Theorem X17_convert_to_native_numpy_free (v : PyVal) :
  numpy_free (convert_to_native v) = convertible v.
Proof. apply convert_numpy_free. Qed.

(** X18.  Converting twice is converting once, and the keys stay as
    they are, dictionary by dictionary and in order. *)
Theorem X18_convert_to_native_idempotent_keeps_keys (v : PyVal) :
  convert_to_native (convert_to_native v) = convert_to_native v /\
  key_shape (convert_to_native v) = key_shape v.
Proof. apply convert_twice_and_keys. Qed.

(** X19.  [export_results] fails exactly as [calculate_cfa] does; when
    it succeeds it hands back the result [calculate_cfa] gives, leaves the
    calculator as [calculate_cfa] leaves it, and writes a tree without any
    numpy value that has the keys of the result. *)
Theorem X19_export_results_outcome (self : CFACalculator) :
  (forall e, calculate_cfa self = inl e -> export_results self = inl e) /\
  (forall r self', calculate_cfa self = inr (r, self') ->
     exists written,
       export_results self = inr (r, written, self') /\
       numpy_free written = true /\
       map fst (key_shape written)
       = ["pct_90"; "pct_6m"; "cfa_score"; "total_days"; "biweekly_parcel";
          "max_consecutive_can_pay_90d"; "balance_stats"; "net_stats";
          "risk_tier"; "recommendation"] /\
       key_shape written = key_shape (results_dict r)).
Proof. apply export_results_cases. Qed.

(** X21.  The charts need the [can_pay] column, which the constructor
    does not make: on a calculator just built from a series without that
    column plotting raises [KeyError], and after [calculate_cfa] it draws
    one point, one bar and one rolling value per record. *)
Theorem X21_plot_needs_can_pay (df : DataFrame) (p : Q)
    (self : CFACalculator) :
  __init__ df p = inr self ->
  has_col df "can_pay" = false ->
  plot_temporal_analysis self = inl (KeyError "can_pay") /\
  forall r self', calculate_cfa self = inr (r, self') ->
    exists pd,
      plot_temporal_analysis self' = inr pd /\
      parcel_level pd = p /\
      length (balance_line pd) = length (rows df) /\
      length (bars pd) = length (rows df) /\
      length (rolling_cfa pd) = length (rows df).
Proof. apply plot_before_and_after. Qed.

(** ** Instances of the properties that have a precondition *)

Lemma calc_3_first_call :
  calculate_cfa calc_3
  = inr (result_of (ensure_can_pay calc_3), ensure_can_pay calc_3).
Proof. vm_compute. reflexivity. Defined.

Lemma X4_witness :
  calculate_cfa calc_3
  = inr (result_of (ensure_can_pay calc_3), ensure_can_pay calc_3) /\
  calculate_cfa (ensure_can_pay calc_3)
  = inr (result_of (ensure_can_pay calc_3), ensure_can_pay calc_3).
Proof.
  split; [exact calc_3_first_call |].
  exact (X4_calculate_cfa_idempotent _ _ _ calc_3_first_call).
Defined.

Lemma X5_witness :
  exists r',
    calculate_cfa (mkCalc (data (ensure_can_pay calc_3)) 1000)
    = inr (r', mkCalc (data (ensure_can_pay calc_3)) 1000) /\
    pct_90 (metrics r')
    = pct_90 (metrics (result_of (ensure_can_pay calc_3))) /\
    biweekly_parcel_out (metrics r') = 1000.
Proof.
  destruct (X5_parcel_change_after_first_call _ _ _ 1000 calc_3_first_call)
    as [r' [H [H90 [_ [_ [_ [_ [_ [Hp _]]]]]]]]].
  exists r'. auto.
Defined.

Lemma X6_witness :
  biweekly_parcel (ensure_can_pay calc_3) = biweekly_parcel calc_3 /\
  map daily_balance (rows (data (ensure_can_pay calc_3)))
  = map daily_balance (rows (data calc_3)).
Proof.
  destruct (X6_calculate_cfa_keeps_the_frame _ _ _ calc_3_first_call)
    as [Hp [_ [Hb _]]].
  auto.
Defined.

Lemma X7_witness :
  __init__ series_90 50 = inr (mkCalc (prepared series_90) 50) /\
  date_ascending (rows (prepared series_90)).
Proof.
  assert (H : __init__ series_90 50 = inr (mkCalc (prepared series_90) 50))
    by (vm_compute; reflexivity).
  split; [exact H |].
  exact (proj1 (proj2 (X7_init_keeps_the_records _ _ _ H))).
Defined.

(** The tier of 97 such days is Starter, the reported score being
    0.5000, although the unrounded score is below one half. *)
Lemma X8_witness :
  weighted_score series_97 1 < 50 # 100 /\
  exists self',
    calculate_cfa (mkCalc (prepared series_97) 1)
    = inr (result_of (ensure_can_pay (mkCalc (prepared series_97) 1)), self')
    /\
    risk_tier (result_of (ensure_can_pay (mkCalc (prepared series_97) 1)))
    = tier_label Tier1 /\
    exists b,
      in_bucket b (cfa_score (metrics
        (result_of (ensure_can_pay (mkCalc (prepared series_97) 1))))) /\
      risk_tier (result_of (ensure_can_pay (mkCalc (prepared series_97) 1)))
      = tier_label b.
Proof.
  split; [vm_compute; reflexivity |].
  assert (H : calculate_cfa (mkCalc (prepared series_97) 1)
              = inr (result_of (ensure_can_pay
                                  (mkCalc (prepared series_97) 1)),
                     ensure_can_pay (mkCalc (prepared series_97) 1)))
    by (vm_compute; reflexivity).
  eexists. split; [exact H |]. split; [vm_compute; reflexivity |].
  destruct (X8_tier_of_reported_score _ _ _ H) as [b [Hb [Ht _]]].
  exists b. auto.
Defined.


Lemma X10_witness :
  ~ 0 == 1 /\
  _max_consecutive_ones ([1; 1] ++ 0 :: [1])
  = Nat.max (_max_consecutive_ones [1; 1]) (_max_consecutive_ones [1]).
Proof.
  assert (H : ~ 0 == 1) by (intro H; discriminate H).
  split; [exact H |].
  exact (X10_max_consecutive_ones_separator [1; 1] [1] 0 H).
Defined.

Lemma X11_witness :
  Forall (fun v => 0 <= v) [1; 1; 0; 1] /\
  inject_Z (Z.of_nat (_max_consecutive_ones [1; 1; 0; 1]))
  <= Qsum [1; 1; 0; 1].
Proof.
  assert (H : Forall (fun v => 0 <= v) [1; 1; 0; 1])
    by (repeat constructor; discriminate).
  split; [exact H |].
  exact (X11_max_consecutive_ones_le_sum _ H).
Defined.

Lemma X14_witness :
  generate_sample_data 5 7 0 (fun _ => 0%Z)
  = generate_sample_data 5 1 0 (fun _ => 0%Z).
Proof.
  apply (X14_generate_sample_data_unknown_tier 5 7 0 (fun _ => 0%Z));
    discriminate.
Defined.

Lemma X15_witness :
  nth_error (rows (generate_sample_data 30 2 0 (fun _ => 0%Z))) 14
  = Some (mkRow 14 1650 800 30 0 0) /\
  draws_in_range (fun _ => 0%Z) /\
  0 < daily_expenses (mkRow 14 1650 800 30 0 0).
Proof.
  assert (H : nth_error (rows (generate_sample_data 30 2 0 (fun _ => 0%Z))) 14
              = Some (mkRow 14 1650 800 30 0 0))
    by (vm_compute; reflexivity).
  assert (Hr : draws_in_range (fun _ => 0%Z)) by (intro k; lia).
  split; [exact H |]. split; [exact Hr |].
  destruct (X15_generate_sample_data_income_and_expenses _ _ _ _ _ _ H)
    as [_ [_ He]].
  exact (proj2 (proj2 (He Hr))).
Defined.

Lemma X21_witness :
  __init__ series_90 50 = inr (mkCalc (prepared series_90) 50) /\
  has_col series_90 "can_pay" = false /\
  plot_temporal_analysis (mkCalc (prepared series_90) 50)
  = inl (KeyError "can_pay").
Proof.
  assert (H : __init__ series_90 50 = inr (mkCalc (prepared series_90) 50))
    by (vm_compute; reflexivity).
  assert (Hc : has_col series_90 "can_pay" = false)
    by (vm_compute; reflexivity).
  split; [exact H |]. split; [exact Hc |].
  exact (proj1 (X21_plot_needs_can_pay _ _ _ H Hc)).
Defined.

Lemma X22_witness :
  exists pd,
    plot_temporal_analysis
      (mkCalc (mkFrame ["date"; "daily_balance"; "can_pay"]
                       [mkRow 1 100 0 0 0 1; mkRow 2 10 0 0 0 0]) 50)
    = inr pd /\
    map (fun b => snd (fst b)) (bars pd) = [1; 0].
Proof.
  eexists. split; [vm_compute; reflexivity |].
  exact (proj1 (X22_plot_bars_and_rolling_curve
                  (mkCalc (mkFrame ["date"; "daily_balance"; "can_pay"]
                                   [mkRow 1 100 0 0 0 1; mkRow 2 10 0 0 0 0])
                          50)
                  _ eq_refl)).
Defined.
